(** * FXAS21002C gyroscope driver (adafruit_fxas21002c.py)

    A shallow embedding of the CircuitPython driver and the properties of
    its register protocol, bit packing and scaling.

    Python ints are [Z]; the contents of a [bytearray] and the bytes on the
    I2C bus are [Byte.byte]; Python floats are IEEE binary64 primitive
    floats.  The driver talks to an [I2CDevice] of [adafruit_bus_device],
    which is not part of the module: it is a parameter here, an oracle that
    answers every write and read from the history of the bus. *)

From Stdlib Require Import String Ascii ZArith List Bool Lia.
From Stdlib Require Import Strings.Byte.
From Stdlib Require Import Floats.
Import ListNotations.
Open Scope Z_scope.

(** ** Internal constants and register values *)

Definition _FXAS21002C_ADDRESS      : Z := 0x21.
Definition _FXAS21002C_ID           : Z := 0xD7.
Definition _GYRO_REGISTER_STATUS    : Z := 0x00.
Definition _GYRO_REGISTER_OUT_X_MSB : Z := 0x01.
Definition _GYRO_REGISTER_OUT_X_LSB : Z := 0x02.
Definition _GYRO_REGISTER_OUT_Y_MSB : Z := 0x03.
Definition _GYRO_REGISTER_OUT_Y_LSB : Z := 0x04.
Definition _GYRO_REGISTER_OUT_Z_MSB : Z := 0x05.
Definition _GYRO_REGISTER_OUT_Z_LSB : Z := 0x06.
Definition _GYRO_REGISTER_WHO_AM_I  : Z := 0x0C.
Definition _GYRO_REGISTER_CTRL_REG0 : Z := 0x0D.
Definition _GYRO_REGISTER_CTRL_REG1 : Z := 0x13.
Definition _GYRO_REGISTER_CTRL_REG2 : Z := 0x14.
Definition _GYRO_SENSITIVITY_250DPS  : float := 0.0078125%float.
Definition _GYRO_SENSITIVITY_500DPS  : float := 0.015625%float.
Definition _GYRO_SENSITIVITY_1000DPS : float := 0.03125%float.
Definition _GYRO_SENSITIVITY_2000DPS : float := 0.0625%float.

(** ** User facing constants *)

Definition GYRO_RANGE_250DPS  : Z := 250.
Definition GYRO_RANGE_500DPS  : Z := 500.
Definition GYRO_RANGE_1000DPS : Z := 1000.
Definition GYRO_RANGE_2000DPS : Z := 2000.

(** ** Python values the driver handles *)

(** The exceptions the module can raise.  [AssertionError] is the failed
    [assert] on the range (the spec's InvalidConfiguration), [RuntimeError]
    the failed chip-ID check (the spec's DeviceNotFound), [OSError] a
    failure of the bus (the spec's BusError).  [IndexError] and
    [ValueError] are what a [bytearray] store raises on a bad index or a
    value outside 0..255. *)
Inductive exn : Type :=
| AssertionError
| RuntimeError (msg : string)
| OSError
| IndexError
| ValueError.

Inductive result (A : Type) : Type :=
| Ok (a : A)
| Raise (e : exn).
Arguments Ok {A} a.
Arguments Raise {A} e.

(** The value of a byte as a Python int, 0..255. *)
Definition int_of_byte (b : byte) : Z := Z.of_N (Byte.to_N b).

(** The byte of a Python int; [None] outside 0..255. *)
Definition byte_of_int (z : Z) : option byte :=
  if z <? 0 then None else Byte.of_N (Z.to_N z).

(** ** The bus *)

(** What is seen on the bus: the lock taken and released by
    [with self._device:], the bytes written (and whether a stop condition
    ends the write), the bytes read; [Sleep] records [time.sleep]. *)
Inductive event : Type :=
| Acquire
| Write (data : list byte) (stop : bool)
| Read (n : nat) (data : list byte)
| Release
| Sleep (seconds : float).

(** The external [i2c_device.I2CDevice]: given the events so far, whether a
    write is acknowledged, and the bytes a read of [n] bytes delivers
    ([None]: the transfer fails). *)
Record I2CDevice : Type := {
  dev_write : list event -> list byte -> bool -> bool;
  dev_readinto : list event -> nat -> option (list byte)
}.

(** The mutable state: the class-level [_BUFFER], shared by every instance,
    and the events in the order they happened. *)
Record world : Type := {
  _BUFFER : list byte;
  trace : list event
}.

(** [bytearray(7)] *)
Definition bytearray7 : list byte := repeat x00 7.

(** ** State and exception monad *)

Definition M (A : Type) : Type := world -> result A * world.

Definition ret {A} (a : A) : M A := fun w => (Ok a, w).
Definition raise {A} (e : exn) : M A := fun w => (Raise e, w).
Definition bind {A B} (m : M A) (k : A -> M B) : M B :=
  fun w => match m w with
           | (Ok a, w') => k a w'
           | (Raise e, w') => (Raise e, w')
           end.

Declare Scope py_scope.
Delimit Scope py_scope with py.
Notation "x <- m ;; k" := (bind m (fun x => k))
  (at level 100, m at next level, right associativity) : py_scope.
Notation "m ;; k" := (bind m (fun _ => k))
  (at level 100, right associativity) : py_scope.
Open Scope py_scope.

Definition log (e : event) : M unit :=
  fun w => (Ok tt, {| _BUFFER := _BUFFER w; trace := trace w ++ [e] |}).

(** [self._BUFFER[i]] *)
Definition buffer_get (i : nat) : M Z :=
  fun w => match nth_error (_BUFFER w) i with
           | Some b => (Ok (int_of_byte b), w)
           | None => (Raise IndexError, w)
           end.

Fixpoint list_set {A} (l : list A) (i : nat) (a : A) : list A :=
  match l, i with
  | [], _ => []
  | _ :: t, O => a :: t
  | h :: t, S j => h :: list_set t j a
  end.

(** [self._BUFFER[i] = v] *)
Definition buffer_set (i : nat) (v : Z) : M unit :=
  fun w => if (i <? length (_BUFFER w))%nat then
             match byte_of_int v with
             | Some b => (Ok tt, {| _BUFFER := list_set (_BUFFER w) i b;
                                    trace := trace w |})
             | None => (Raise ValueError, w)
             end
           else (Raise IndexError, w).

(** [with self._device: body]: the lock is released on every path. *)
Definition with_device {A} (body : M A) : M A :=
  fun w => match log Acquire w with
           | (_, w1) => match body w1 with
                        | (r, w2) => (r, snd (log Release w2))
                        end
           end.

(** [device.write(self._BUFFER, end=n, stop=stop)] *)
Definition device_write (dev : I2CDevice) (n : nat) (stop : bool) : M unit :=
  fun w => let data := firstn n (_BUFFER w) in
           if dev_write dev (trace w) data stop
           then log (Write data stop) w
           else (Raise OSError, w).

(** [device.readinto(self._BUFFER, end=n)] *)
Definition device_readinto (dev : I2CDevice) (n : nat) : M unit :=
  fun w => match dev_readinto dev (trace w) n with
           | Some data =>
               if (length data =? n)%nat then
                 (Ok tt, {| _BUFFER := data ++ skipn n (_BUFFER w);
                            trace := trace w ++ [Read n data] |})
               else (Raise OSError, w)
           | None => (Raise OSError, w)
           end.

(** [device.readinto(self._BUFFER)]: without [end], the whole buffer. *)
Definition device_readinto_all (dev : I2CDevice) : M unit :=
  fun w => device_readinto dev (length (_BUFFER w)) w.

(** [time.sleep(s)] *)
Definition time_sleep (s : float) : M unit := log (Sleep s).

(** ** The driver *)

Record FXAS21002C : Type := {
  _gyro_range : Z;
  _device : I2CDevice
}.

(** Read an 8-bit unsigned value from the specified 8-bit address. *)
Definition _read_u8 (dev : I2CDevice) (address : Z) : M Z :=
  with_device (
    buffer_set 0 (Z.land address 0xFF) ;;
    device_write dev 1 false ;;
    device_readinto dev 1) ;;
  buffer_get 0.

(** Write an 8-bit unsigned value to the specified 8-bit address. *)
Definition _write_u8 (dev : I2CDevice) (address val : Z) : M unit :=
  with_device (
    buffer_set 0 (Z.land address 0xFF) ;;
    buffer_set 1 (Z.land val 0xFF) ;;
    device_write dev 2 true).

(** [gyro_range in (GYRO_RANGE_250DPS, ..., GYRO_RANGE_2000DPS)] *)
Definition range_in_options (gyro_range : Z) : bool :=
  (gyro_range =? GYRO_RANGE_250DPS) || (gyro_range =? GYRO_RANGE_500DPS)
  || (gyro_range =? GYRO_RANGE_1000DPS) || (gyro_range =? GYRO_RANGE_2000DPS).

(** The [if]/[elif] chain of [__init__] that computes [ctrlReg0]. *)
Definition ctrlReg0_of (gyro_range : Z) : Z :=
  let ctrlReg0 := 0x00 in
  if gyro_range =? GYRO_RANGE_250DPS then 0x03
  else if gyro_range =? GYRO_RANGE_500DPS then 0x02
  else if gyro_range =? GYRO_RANGE_1000DPS then 0x01
  else if gyro_range =? GYRO_RANGE_2000DPS then 0x00
  else ctrlReg0.

Definition wiring_message : string := "Failed to find FXAS21002C, check wiring!".

(** [FXAS21002C.__init__]; [dev] is [i2c_device.I2CDevice(i2c, address)]. *)
Definition __init__ (dev : I2CDevice) (gyro_range : Z) : M FXAS21002C :=
  if negb (range_in_options gyro_range) then raise AssertionError else
  let self := {| _gyro_range := gyro_range; _device := dev |} in
  id <- _read_u8 (_device self) _GYRO_REGISTER_WHO_AM_I ;;
  if negb (id =? _FXAS21002C_ID) then raise (RuntimeError wiring_message) else
  let ctrlReg0 := ctrlReg0_of gyro_range in
  _write_u8 (_device self) _GYRO_REGISTER_CTRL_REG0 ctrlReg0 ;;
  _write_u8 (_device self) _GYRO_REGISTER_CTRL_REG1 0x0E ;;
  time_sleep 0x1.999999999999ap-4%float (* 0.1 *) ;;
  ret self.

(** [FXAS21002C.read_raw] *)
Definition read_raw (self : FXAS21002C) : M (Z * Z * Z) :=
  with_device (
    buffer_set 0 (Z.lor _GYRO_REGISTER_STATUS 0x80) ;;
    device_write (_device self) 1 false ;;
    device_readinto_all (_device self)) ;;
  status <- buffer_get 0 ;;
  xhi <- buffer_get 1 ;;
  xlo <- buffer_get 2 ;;
  yhi <- buffer_get 3 ;;
  ylo <- buffer_get 4 ;;
  zhi <- buffer_get 5 ;;
  zlo <- buffer_get 6 ;;
  let raw_x := Z.land (Z.lor (Z.shiftl xhi 8) xlo) 0xFFFF in
  let raw_y := Z.land (Z.lor (Z.shiftl yhi 8) ylo) 0xFFFF in
  let raw_z := Z.land (Z.lor (Z.shiftl zhi 8) zlo) 0xFFFF in
  ret (raw_x, raw_y, raw_z).

(** ** Scaling *)

(** What [gyroscope] hands back is a Python object: the [map] builtin gives
    a lazy map object over the function and the iterable, not a tuple; a
    path of a function that reaches no [return] gives [None]. *)
Inductive pyobject : Type :=
| PyNone
| PyTuple (items : list float)
| PyMapObject (func : Z -> float) (iterable : list Z).

Definition is_tuple (o : pyobject) : bool :=
  match o with PyTuple _ => true | _ => false end.

(** [next(o)]: the next item and the object after it was taken. *)
Definition py_next (o : pyobject) : option (float * pyobject) :=
  match o with
  | PyMapObject f (x :: rest) => Some (f x, PyMapObject f rest)
  | _ => None
  end.

(** The items an iteration over the object yields ([x, y, z = o],
    [list(o)]); [None] when the object is not iterable. *)
Definition py_items (o : pyobject) : option (list float) :=
  match o with
  | PyNone => None
  | PyTuple items => Some items
  | PyMapObject f iterable => Some (map f iterable)
  end.

(** The float of a Python int: the nearest binary64 value. *)
Definition float_of_int (x : Z) : float :=
  SF2Prim (binary_normalize prec emax x 0 false).

(** [x * c] for an int [x] and a float [c]. *)
Definition int_mul_float (x : Z) (c : float) : float :=
  PrimFloat.mul (float_of_int x) c.

(** The items of the tuple [read_raw] returns, in order. *)
Definition tuple3_items (raw : Z * Z * Z) : list Z :=
  let '(x, y, z) := raw in [x; y; z].

(** [FXAS21002C.gyroscope] *)
Definition gyroscope (self : FXAS21002C) : M pyobject :=
  raw <- read_raw self ;;
  if _gyro_range self =? GYRO_RANGE_250DPS then
    ret (PyMapObject (fun x => int_mul_float x _GYRO_SENSITIVITY_250DPS)
                     (tuple3_items raw))
  else if _gyro_range self =? GYRO_RANGE_500DPS then
    ret (PyMapObject (fun x => int_mul_float x _GYRO_SENSITIVITY_500DPS)
                     (tuple3_items raw))
  else if _gyro_range self =? GYRO_RANGE_1000DPS then
    ret (PyMapObject (fun x => int_mul_float x _GYRO_SENSITIVITY_1000DPS)
                     (tuple3_items raw))
  else if _gyro_range self =? GYRO_RANGE_2000DPS then
    ret (PyMapObject (fun x => int_mul_float x _GYRO_SENSITIVITY_2000DPS)
                     (tuple3_items raw))
  else ret PyNone.

(** ** A scripted bus *)

(** A device that acknowledges every write, answers a one-byte read with
    [whoami] and a longer read with [sample]. *)
Definition mock_device (whoami : byte) (sample : list byte) : I2CDevice :=
  {| dev_write := fun _ _ _ => true;
     dev_readinto := fun _ n =>
       if (n =? 1)%nat then Some [whoami] else Some sample |}.

Definition fresh_world : world := {| _BUFFER := bytearray7; trace := [] |}.

(** ** Vocabulary of the specification *)

(** The range to config byte table of the specification, section 4.1. *)
Definition range_config_table : list (Z * byte) :=
  [(250, x03); (500, x02); (1000, x01); (2000, x00)].

(** Decoding by table lookup: the range whose config byte is [c]. *)
Definition decode_config (c : Z) : option Z :=
  option_map fst
    (find (fun rc => int_of_byte (snd rc) =? c) range_config_table).

(** A single-byte register write on the bus: the two bytes
    [address, value] sent as one write that ends with a stop. *)
Definition is_register_write (reg : Z) (e : event) : bool :=
  match e with
  | Write [a; _] true => int_of_byte a =? reg
  | _ => false
  end.

Definition register_writes (reg : Z) (evs : list event) : list event :=
  filter (is_register_write reg) evs.

(** [(high_byte << 8) | low_byte], masked to 16 bits. *)
Definition pack16 (high_byte low_byte : byte) : Z :=
  Z.land (Z.lor (Z.shiftl (int_of_byte high_byte) 8) (int_of_byte low_byte))
         0xFFFF.

(** The sensitivity table of the specification, section 4.1. *)
Definition sensitivity_table : list (Z * float) :=
  [(250, 0.0078125%float); (500, 0.015625%float);
   (1000, 0.03125%float); (2000, 0.0625%float)].

(** [f] is exactly the decimal number [digits / 10 ^ places]: the finite
    float of mantissa [m] and exponent [e] stands for [m * 2 ^ e]. *)
Definition float_is_decimal (f : float) (digits places : Z) : bool :=
  match Prim2SF f with
  | S754_zero _ => digits =? 0
  | S754_finite s m e =>
      let m' := if s then Z.neg m else Z.pos m in
      if 0 <=? e then m' * 2 ^ e * 10 ^ places =? digits
      else m' * 10 ^ places =? digits * 2 ^ (- e)
  | _ => false
  end.

(** The driver object of a range on the scripted bus. *)
Definition mock_sensor (gyro_range : Z) (sample : list byte) : FXAS21002C :=
  {| _gyro_range := gyro_range; _device := mock_device xd7 sample |}.

(** ** Lock discipline *)

(** The events respect the lock of [with self._device:]: the lock is taken
    only when free, bytes move only while it is held, the driver sleeps
    only while it is free, and at the end the lock is free.  [held] tells
    whether the lock is held before the first event. *)
Fixpoint lock_ok (held : bool) (evs : list event) : bool :=
  match evs with
  | [] => negb held
  | Acquire :: rest => negb held && lock_ok true rest
  | Release :: rest => held && lock_ok false rest
  | Write _ _ :: rest => held && lock_ok held rest
  | Read _ _ :: rest => held && lock_ok held rest
  | Sleep _ :: rest => negb held && lock_ok held rest
  end.

Definition is_sleep (e : event) : bool :=
  match e with Sleep _ => true | _ => false end.

Definition is_write (e : event) : bool :=
  match e with Write _ _ => true | _ => false end.

Definition is_read (e : event) : bool :=
  match e with Read _ _ => true | _ => false end.

(** ** A scripted bus that fails *)

(** A device that refuses the write number [nack_at] (counting from 0 the
    writes already in the history) and acknowledges the others; its reads
    fail unless [reads] is set, and then answer as [mock_device] does. *)
Definition failing_device (nack_at : nat) (reads : bool)
    (whoami : byte) (sample : list byte) : I2CDevice :=
  {| dev_write := fun h _ _ =>
       negb (length (filter is_write h) =? nack_at)%nat;
     dev_readinto := fun _ n =>
       if reads then (if (n =? 1)%nat then Some [whoami] else Some sample)
       else None |}.

(** * Properties *)

Arguments int_of_byte : simpl never.

Ltac norm_trace := repeat (rewrite <- app_assoc; cbn [app]).

(** ** Bytes *)

Lemma int_of_byte_inj (a b : byte) : int_of_byte a = int_of_byte b -> a = b.
Proof.
  unfold int_of_byte. intros H. apply N2Z.inj in H.
  pose proof (Byte.of_to_N a) as Ha. rewrite H, Byte.of_to_N in Ha.
  congruence.
Qed.

Lemma int_of_byte_range (b : byte) : 0 <= int_of_byte b < 256.
Proof.
  unfold int_of_byte. pose proof (Byte.to_N_bounded b). lia.
Qed.

Lemma length7_inv {A} (l : list A) :
  length l = 7%nat -> exists a b c d e f g, l = [a; b; c; d; e; f; g].
Proof.
  intros H.
  do 7 (destruct l as [|? l]; [discriminate H|]).
  destruct l; [|discriminate H].
  repeat eexists.
Qed.

(** ** The two register protocols *)

(** Single-byte register read: the address byte is written without a stop,
    then one byte is read, all inside one lock. *)
Lemma read_u8_run dev address a b b0 rest tr :
  byte_of_int (Z.land address 0xFF) = Some a ->
  dev_write dev (tr ++ [Acquire]) [a] false = true ->
  dev_readinto dev (tr ++ [Acquire; Write [a] false]) 1 = Some [b] ->
  _read_u8 dev address {| _BUFFER := b0 :: rest; trace := tr |} =
    (Ok (int_of_byte b),
     {| _BUFFER := b :: rest;
        trace := tr ++ [Acquire; Write [a] false; Read 1 [b]; Release] |}).
Proof.
  intros Ha Hw Hr.
  unfold _read_u8, with_device, bind, buffer_set, device_write,
    device_readinto, log, buffer_get.
  cbn [_BUFFER trace length Nat.ltb Nat.leb fst snd].
  rewrite Ha. cbn [_BUFFER trace list_set firstn].
  rewrite Hw. cbn [_BUFFER trace]. norm_trace.
  rewrite Hr. cbn [_BUFFER trace length Nat.eqb skipn app fst snd nth_error].
  norm_trace. reflexivity.
Qed.

(** Single-byte register write: address and value go out as one write. *)
Lemma write_u8_run dev address val a v b0 b1 rest tr :
  byte_of_int (Z.land address 0xFF) = Some a ->
  byte_of_int (Z.land val 0xFF) = Some v ->
  dev_write dev (tr ++ [Acquire]) [a; v] true = true ->
  _write_u8 dev address val {| _BUFFER := b0 :: b1 :: rest; trace := tr |} =
    (Ok tt,
     {| _BUFFER := a :: v :: rest;
        trace := tr ++ [Acquire; Write [a; v] true; Release] |}).
Proof.
  intros Ha Hv Hw.
  unfold _write_u8, with_device, bind, buffer_set, device_write, log.
  cbn [_BUFFER trace length Nat.ltb Nat.leb fst snd].
  rewrite Ha. cbn [_BUFFER trace list_set length Nat.ltb Nat.leb].
  rewrite Hv. cbn [_BUFFER trace list_set firstn].
  rewrite Hw. cbn [_BUFFER trace fst snd]. norm_trace. reflexivity.
Qed.

(** ** Range validation *)

Lemma range_in_options_spec (gyro_range : Z) :
  range_in_options gyro_range = true <-> In gyro_range [250; 500; 1000; 2000].
Proof.
  unfold range_in_options, GYRO_RANGE_250DPS, GYRO_RANGE_500DPS,
    GYRO_RANGE_1000DPS, GYRO_RANGE_2000DPS.
  rewrite !orb_true_iff, !Z.eqb_eq. simpl. intuition congruence.
Qed.

(** C7: a range outside the four options fails the [assert] of
    [__init__]: construction raises [AssertionError], whatever the device
    and the state, before anything is sent on the bus, and no driver object
    is produced. *)
Theorem init_rejects_unlisted_range (dev : I2CDevice) (gyro_range : Z) (w : world) :
  ~ In gyro_range [250; 500; 1000; 2000] ->
  __init__ dev gyro_range w = (Raise AssertionError, w).
Proof.
  intros Hout. unfold __init__.
  destruct (range_in_options gyro_range) eqn:E.
  - apply range_in_options_spec in E. contradiction.
  - reflexivity.
Qed.

Lemma init_rejects_unlisted_range_witness :
  __init__ (mock_device xd7 []) 750 fresh_world = (Raise AssertionError, fresh_world).
Proof.
  apply (init_rejects_unlisted_range (mock_device xd7 []) 750 fresh_world).
  simpl. intros [H | [H | [H | [H | []]]]]; discriminate H.
Defined.

(** ** Construction *)

Lemma ctrlReg0_of_table gyro_range cfg :
  In (gyro_range, cfg) range_config_table ->
  range_in_options gyro_range = true /\
  byte_of_int (Z.land (ctrlReg0_of gyro_range) 0xFF) = Some cfg.
Proof.
  intros H. simpl in H.
  destruct H as [H | [H | [H | [H | []]]]]; inversion H; subst; split; reflexivity.
Qed.

(** C1: for each of the four ranges, when the identity register reads 0xD7
    and the bus acknowledges the writes, [__init__] succeeds and sends, after
    the identity read, the config byte of the table (250: 0x03, 500: 0x02,
    1000: 0x01, 2000: 0x00) to register 0x0D and then the byte 0x0E to
    register 0x13, in that order, and nothing else but the final sleep. *)
Theorem init_writes_range_then_activates
    (dev : I2CDevice) (gyro_range : Z) (cfg : byte)
    (buf : list byte) (tr : list event) :
  length buf = 7%nat ->
  In (gyro_range, cfg) range_config_table ->
  dev_write dev (tr ++ [Acquire]) [x0c] false = true ->
  dev_readinto dev (tr ++ [Acquire; Write [x0c] false]) 1 = Some [xd7] ->
  dev_write dev
    (tr ++ [Acquire; Write [x0c] false; Read 1 [xd7]; Release; Acquire])
    [x0d; cfg] true = true ->
  dev_write dev
    (tr ++ [Acquire; Write [x0c] false; Read 1 [xd7]; Release;
            Acquire; Write [x0d; cfg] true; Release; Acquire])
    [x13; x0e] true = true ->
  exists w',
    __init__ dev gyro_range {| _BUFFER := buf; trace := tr |} =
      (Ok {| _gyro_range := gyro_range; _device := dev |}, w') /\
    trace w' =
      tr ++ [Acquire; Write [x0c] false; Read 1 [xd7]; Release;
             Acquire; Write [x0d; cfg] true; Release;
             Acquire; Write [x13; x0e] true; Release;
             Sleep 0x1.999999999999ap-4%float].
Proof.
  intros Hlen Htab Hw0 Hr Hw1 Hw2.
  destruct (length7_inv buf Hlen) as (b0 & b1 & b2 & b3 & b4 & b5 & b6 & ->).
  destruct (ctrlReg0_of_table _ _ Htab) as [Hopt Hcfg].
  unfold __init__. rewrite Hopt. cbn [negb _device].
  unfold bind at 1.
  rewrite (read_u8_run dev _GYRO_REGISTER_WHO_AM_I x0c xd7 b0 _ tr eq_refl Hw0 Hr).
  change (int_of_byte xd7 =? _FXAS21002C_ID) with true. cbn [negb].
  unfold bind at 1.
  rewrite (write_u8_run dev _GYRO_REGISTER_CTRL_REG0 _ x0d cfg xd7 b1 _ _ eq_refl Hcfg).
  2:{ norm_trace. exact Hw1. }
  unfold bind at 1.
  rewrite (write_u8_run dev _GYRO_REGISTER_CTRL_REG1 0x0E x13 x0e x0d cfg _ _ eq_refl eq_refl).
  2:{ norm_trace. exact Hw2. }
  unfold bind, time_sleep, log, ret. cbn [_BUFFER trace].
  eexists. split; [reflexivity|]. cbn [trace]. norm_trace. reflexivity.
Qed.

Lemma init_writes_range_then_activates_witness :
  exists w',
    __init__ (mock_device xd7 []) 500 fresh_world =
      (Ok {| _gyro_range := 500; _device := mock_device xd7 [] |}, w') /\
    trace w' =
      [] ++ [Acquire; Write [x0c] false; Read 1 [xd7]; Release;
             Acquire; Write [x0d; x02] true; Release;
             Acquire; Write [x13; x0e] true; Release;
             Sleep 0x1.999999999999ap-4%float].
Proof.
  apply (init_writes_range_then_activates (mock_device xd7 []) 500 x02
           bytearray7 []).
  - reflexivity.
  - simpl. right. left. reflexivity.
  - reflexivity.
  - reflexivity.
  - reflexivity.
  - reflexivity.
Defined.

(** C4: when the range is one of the four options and the identity register
    0x0C reads a byte other than 0xD7, [__init__] raises the [RuntimeError]
    whose message tells to check the wiring; the bus has seen the identity
    read only: no write to register 0x0D and none to register 0x13. *)
Theorem init_wrong_identity_raises
    (dev : I2CDevice) (gyro_range : Z) (b : byte)
    (buf : list byte) (tr : list event) :
  length buf = 7%nat ->
  In gyro_range [250; 500; 1000; 2000] ->
  dev_write dev (tr ++ [Acquire]) [x0c] false = true ->
  dev_readinto dev (tr ++ [Acquire; Write [x0c] false]) 1 = Some [b] ->
  b <> xd7 ->
  exists msg evs w',
    __init__ dev gyro_range {| _BUFFER := buf; trace := tr |} =
      (Raise (RuntimeError msg), w') /\
    String.index 0 "check wiring" msg <> None /\
    trace w' = tr ++ evs /\
    evs = [Acquire; Write [x0c] false; Read 1 [b]; Release] /\
    register_writes _GYRO_REGISTER_CTRL_REG0 evs = [] /\
    register_writes _GYRO_REGISTER_CTRL_REG1 evs = [].
Proof.
  intros Hlen Hin Hw0 Hr Hb.
  destruct (length7_inv buf Hlen) as (b0 & b1 & b2 & b3 & b4 & b5 & b6 & ->).
  apply range_in_options_spec in Hin.
  unfold __init__. rewrite Hin. cbn [negb _device].
  unfold bind at 1.
  rewrite (read_u8_run dev _GYRO_REGISTER_WHO_AM_I x0c b b0 _ tr eq_refl Hw0 Hr).
  destruct (int_of_byte b =? _FXAS21002C_ID) eqn:E.
  - apply Z.eqb_eq in E. exfalso. apply Hb.
    apply int_of_byte_inj. rewrite E. reflexivity.
  - cbn [negb]. unfold raise.
    exists wiring_message, [Acquire; Write [x0c] false; Read 1 [b]; Release].
    eexists. split; [reflexivity|].
    split; [vm_compute; discriminate|].
    split; [reflexivity|]. split; [reflexivity|]. split; reflexivity.
Qed.

Lemma init_wrong_identity_raises_witness :
  exists msg evs w',
    __init__ (mock_device xd6 []) 250 fresh_world =
      (Raise (RuntimeError msg), w') /\
    String.index 0 "check wiring" msg <> None /\
    trace w' = [] ++ evs /\
    evs = [Acquire; Write [x0c] false; Read 1 [xd6]; Release] /\
    register_writes _GYRO_REGISTER_CTRL_REG0 evs = [] /\
    register_writes _GYRO_REGISTER_CTRL_REG1 evs = [].
Proof.
  apply (init_wrong_identity_raises (mock_device xd6 []) 250 xd6
           bytearray7 []).
  - reflexivity.
  - simpl. left. reflexivity.
  - reflexivity.
  - reflexivity.
  - discriminate.
Defined.

(** C8: on the four ranges the [if]/[elif] chain of [__init__] and the
    table of the specification agree, decoding a computed config byte by
    table lookup gives the range back, two ranges with the same config byte
    are equal, each of the bytes 0..3 is the config byte of one of the four
    ranges, and a fifth range value is refused by the [assert]. *)
Theorem range_config_bijection :
  (forall r cfg, In (r, cfg) range_config_table ->
     ctrlReg0_of r = int_of_byte cfg) /\
  (forall r, In r [250; 500; 1000; 2000] ->
     decode_config (ctrlReg0_of r) = Some r) /\
  (forall r1 r2, In r1 [250; 500; 1000; 2000] -> In r2 [250; 500; 1000; 2000] ->
     ctrlReg0_of r1 = ctrlReg0_of r2 -> r1 = r2) /\
  NoDup (map ctrlReg0_of [250; 500; 1000; 2000]) /\
  (forall c, In c [0; 1; 2; 3] ->
     exists r, In r [250; 500; 1000; 2000] /\ ctrlReg0_of r = c) /\
  (forall dev r w, ~ In r [250; 500; 1000; 2000] ->
     __init__ dev r w = (Raise AssertionError, w)).
Proof.
  split; [|split; [|split; [|split; [|split]]]].
  - intros r cfg H. simpl in H.
    destruct H as [H | [H | [H | [H | []]]]]; inversion H; reflexivity.
  - intros r H. simpl in H.
    destruct H as [H | [H | [H | [H | []]]]]; subst; reflexivity.
  - intros r1 r2 H1 H2. simpl in H1, H2.
    destruct H1 as [H1 | [H1 | [H1 | [H1 | []]]]]; subst r1;
      destruct H2 as [H2 | [H2 | [H2 | [H2 | []]]]]; subst r2;
      vm_compute; congruence.
  - change (map ctrlReg0_of [250; 500; 1000; 2000]) with [3; 2; 1; 0].
    repeat constructor; simpl; intuition discriminate.
  - intros c H. simpl in H.
    destruct H as [H | [H | [H | [H | []]]]]; subst c.
    + exists 2000. simpl. intuition.
    + exists 1000. simpl. intuition.
    + exists 500. simpl. intuition.
    + exists 250. simpl. intuition.
  - intros dev r w Hout. unfold __init__.
    destruct (range_in_options r) eqn:E; [|reflexivity].
    apply range_in_options_spec in E. contradiction.
Qed.

Lemma range_config_bijection_witness :
  decode_config (ctrlReg0_of 1000) = Some 1000 /\
  __init__ (mock_device xd7 []) 125 fresh_world = (Raise AssertionError, fresh_world).
Proof.
  destruct range_config_bijection as (_ & Hdec & _ & _ & _ & Hrej).
  split.
  - apply (Hdec 1000). simpl. right. right. left. reflexivity.
  - apply (Hrej (mock_device xd7 []) 125 fresh_world).
    simpl. intros [H | [H | [H | [H | []]]]]; discriminate H.
Defined.

(** ** Raw samples *)

Lemma mask16_range (a : Z) : 0 <= Z.land a 0xFFFF <= 65535.
Proof.
  assert (Z.land a 0xFFFF = a mod 65536) as ->.
  { change 0xFFFF with (Z.ones 16). rewrite Z.land_ones by lia. reflexivity. }
  pose proof (Z.mod_pos_bound a 65536 ltac:(lia)). lia.
Qed.

Lemma shifted_high_disjoint (h l : Z) :
  0 <= l < 256 -> Z.land (Z.shiftl h 8) l = 0.
Proof.
  intros Hl. apply Z.bits_inj'. intros n Hn.
  rewrite Z.land_spec, Z.bits_0.
  destruct (Z.ltb_spec n 8) as [Hlt | Hge].
  - rewrite Z.shiftl_spec_low by lia. reflexivity.
  - assert (Z.testbit l n = false) as ->; [|apply andb_false_r].
    destruct (Z.eq_dec l 0) as [-> | Hnz]; [apply Z.bits_0|].
    apply Z.bits_above_log2; [lia|].
    assert (Z.log2 l < 8); [|lia].
    apply Z.log2_lt_pow2; [lia | change (2 ^ 8) with 256; lia].
Qed.

(** On bytes the mask changes nothing: the packed value is the big-endian
    16-bit number of the two bytes. *)
Lemma pack16_value (hi lo : byte) :
  pack16 hi lo = 256 * int_of_byte hi + int_of_byte lo.
Proof.
  unfold pack16.
  pose proof (int_of_byte_range hi) as Hh.
  pose proof (int_of_byte_range lo) as Hl.
  pose proof (shifted_high_disjoint (int_of_byte hi) (int_of_byte lo) Hl) as Hd.
  rewrite <- (Z.lxor_lor _ _ Hd), <- (Z.add_nocarry_lxor _ _ Hd).
  rewrite Z.shiftl_mul_pow2 by lia.
  change 0xFFFF with (Z.ones 16). rewrite Z.land_ones by lia.
  change (2 ^ 8) with 256. change (2 ^ 16) with 65536.
  rewrite Z.mod_small; lia.
Qed.

(** A burst read that the bus serves: the result and the state after it. *)
Lemma read_raw_run self buf tr st xhi xlo yhi ylo zhi zlo :
  length buf = 7%nat ->
  dev_write (_device self) (tr ++ [Acquire]) [x80] false = true ->
  dev_readinto (_device self) (tr ++ [Acquire; Write [x80] false]) 7 =
    Some [st; xhi; xlo; yhi; ylo; zhi; zlo] ->
  read_raw self {| _BUFFER := buf; trace := tr |} =
    (Ok (pack16 xhi xlo, pack16 yhi ylo, pack16 zhi zlo),
     {| _BUFFER := [st; xhi; xlo; yhi; ylo; zhi; zlo];
        trace := tr ++ [Acquire; Write [x80] false;
                        Read 7 [st; xhi; xlo; yhi; ylo; zhi; zlo];
                        Release] |}).
Proof.
  intros Hlen Hw Hr.
  destruct (length7_inv buf Hlen) as (b0 & b1 & b2 & b3 & b4 & b5 & b6 & ->).
  unfold read_raw, with_device, bind, buffer_set, device_write,
    device_readinto_all, device_readinto, log, buffer_get, ret.
  change (byte_of_int (Z.lor _GYRO_REGISTER_STATUS 128)) with (Some x80).
  cbn [_BUFFER trace length Nat.ltb Nat.leb fst snd list_set firstn].
  rewrite Hw. cbn [_BUFFER trace length]. norm_trace.
  rewrite Hr.
  cbn [_BUFFER trace length Nat.eqb skipn app fst snd nth_error].
  norm_trace. reflexivity.
Qed.

(** Whatever the bus does, a result of [read_raw] is three masked values. *)
Lemma read_raw_result_masked self w x y z :
  fst (read_raw self w) = Ok (x, y, z) ->
  exists a b c,
    x = Z.land a 0xFFFF /\ y = Z.land b 0xFFFF /\ z = Z.land c 0xFFFF.
Proof.
  unfold read_raw, bind, buffer_get, ret. intros H.
  repeat match type of H with
         | context [match ?t with _ => _ end] =>
             destruct t eqn:?; try discriminate H
         end.
  cbn [fst] in H. inversion H.
  do 3 eexists. repeat split; reflexivity.
Qed.

(** C2: when the bus answers the burst read with the seven bytes
    [status, xhi, xlo, yhi, ylo, zhi, zlo], [read_raw] returns the tuple
    (X, Y, Z) in that order, each axis being [(hi << 8) | lo] masked to 16
    bits, which on bytes is [256 * hi + lo]; for the bytes
    [0x00, 0x01, 0x02, 0x03, 0x04, 0x05, 0x06] the result is
    (0x0102, 0x0304, 0x0506). *)
Theorem read_raw_packs_axes
    (self : FXAS21002C) (buf : list byte) (tr : list event)
    (status xhi xlo yhi ylo zhi zlo : byte) :
  length buf = 7%nat ->
  dev_write (_device self) (tr ++ [Acquire]) [x80] false = true ->
  dev_readinto (_device self) (tr ++ [Acquire; Write [x80] false]) 7 =
    Some [status; xhi; xlo; yhi; ylo; zhi; zlo] ->
  let result := fst (read_raw self {| _BUFFER := buf; trace := tr |}) in
  result = Ok (Z.land (Z.lor (Z.shiftl (int_of_byte xhi) 8) (int_of_byte xlo)) 0xFFFF,
               Z.land (Z.lor (Z.shiftl (int_of_byte yhi) 8) (int_of_byte ylo)) 0xFFFF,
               Z.land (Z.lor (Z.shiftl (int_of_byte zhi) 8) (int_of_byte zlo)) 0xFFFF) /\
  result = Ok (256 * int_of_byte xhi + int_of_byte xlo,
               256 * int_of_byte yhi + int_of_byte ylo,
               256 * int_of_byte zhi + int_of_byte zlo) /\
  ([status; xhi; xlo; yhi; ylo; zhi; zlo] = [x00; x01; x02; x03; x04; x05; x06] ->
   result = Ok (0x0102, 0x0304, 0x0506)).
Proof.
  intros Hlen Hw Hr result. subst result.
  rewrite (read_raw_run self buf tr status xhi xlo yhi ylo zhi zlo Hlen Hw Hr).
  cbn [fst]. split; [reflexivity|]. split.
  - rewrite !pack16_value. reflexivity.
  - intros E. inversion E. reflexivity.
Qed.

Lemma read_raw_packs_axes_witness :
  fst (read_raw {| _gyro_range := 250;
                   _device := mock_device xd7 [x00; x01; x02; x03; x04; x05; x06] |}
                fresh_world) = Ok (0x0102, 0x0304, 0x0506).
Proof.
  refine (proj2 (proj2 (read_raw_packs_axes
    {| _gyro_range := 250;
       _device := mock_device xd7 [x00; x01; x02; x03; x04; x05; x06] |}
    bytearray7 [] x00 x01 x02 x03 x04 x05 x06 _ _ _)) _); reflexivity.
Defined.

(** C6: a call of [read_raw] that the bus serves adds to the bus history
    exactly one locked transaction: the single byte [0x00 | 0x80] written
    without a stop, then one read of 7 bytes, then the release.  The range
    of the driver object plays no part: with any other range the call
    returns the same result and leaves the same state. *)
Theorem read_raw_one_burst_transaction
    (self : FXAS21002C) (buf : list byte) (tr : list event)
    (b0 b1 b2 b3 b4 b5 b6 : byte) :
  length buf = 7%nat ->
  dev_write (_device self) (tr ++ [Acquire]) [x80] false = true ->
  dev_readinto (_device self) (tr ++ [Acquire; Write [x80] false]) 7 =
    Some [b0; b1; b2; b3; b4; b5; b6] ->
  trace (snd (read_raw self {| _BUFFER := buf; trace := tr |})) =
    tr ++ [Acquire; Write [x80] false;
           Read 7 [b0; b1; b2; b3; b4; b5; b6]; Release] /\
  int_of_byte x80 = Z.lor 0x00 0x80 /\
  forall other_range w,
    read_raw {| _gyro_range := other_range; _device := _device self |} w =
    read_raw self w.
Proof.
  intros Hlen Hw Hr.
  rewrite (read_raw_run self buf tr b0 b1 b2 b3 b4 b5 b6 Hlen Hw Hr).
  cbn [snd trace]. split; [reflexivity|]. split; reflexivity.
Qed.

Lemma read_raw_one_burst_transaction_witness :
  trace (snd (read_raw {| _gyro_range := 2000;
                          _device := mock_device xd7 [x08; x01; x02; x03; x04; x05; x06] |}
                       fresh_world)) =
    [] ++ [Acquire; Write [x80] false;
           Read 7 [x08; x01; x02; x03; x04; x05; x06]; Release].
Proof.
  refine (proj1 (read_raw_one_burst_transaction
    {| _gyro_range := 2000;
       _device := mock_device xd7 [x08; x01; x02; x03; x04; x05; x06] |}
    bytearray7 [] x08 x01 x02 x03 x04 x05 x06 _ _ _)); reflexivity.
Defined.

(** C9: two burst reads whose responses agree on bytes 1 to 6 and differ
    at most in byte 0, the status byte, give the same (X, Y, Z), whatever
    the two driver objects, buffers and histories; the result is made of
    bytes 1 to 6 alone. *)
Theorem read_raw_ignores_status
    (self1 self2 : FXAS21002C) (buf1 buf2 : list byte) (tr1 tr2 : list event)
    (status1 status2 xhi xlo yhi ylo zhi zlo : byte) :
  length buf1 = 7%nat ->
  length buf2 = 7%nat ->
  dev_write (_device self1) (tr1 ++ [Acquire]) [x80] false = true ->
  dev_write (_device self2) (tr2 ++ [Acquire]) [x80] false = true ->
  dev_readinto (_device self1) (tr1 ++ [Acquire; Write [x80] false]) 7 =
    Some [status1; xhi; xlo; yhi; ylo; zhi; zlo] ->
  dev_readinto (_device self2) (tr2 ++ [Acquire; Write [x80] false]) 7 =
    Some [status2; xhi; xlo; yhi; ylo; zhi; zlo] ->
  fst (read_raw self1 {| _BUFFER := buf1; trace := tr1 |}) =
  fst (read_raw self2 {| _BUFFER := buf2; trace := tr2 |}) /\
  fst (read_raw self1 {| _BUFFER := buf1; trace := tr1 |}) =
    Ok (pack16 xhi xlo, pack16 yhi ylo, pack16 zhi zlo).
Proof.
  intros Hl1 Hl2 Hw1 Hw2 Hr1 Hr2.
  rewrite (read_raw_run self1 buf1 tr1 status1 xhi xlo yhi ylo zhi zlo Hl1 Hw1 Hr1).
  rewrite (read_raw_run self2 buf2 tr2 status2 xhi xlo yhi ylo zhi zlo Hl2 Hw2 Hr2).
  split; reflexivity.
Qed.

Lemma read_raw_ignores_status_witness :
  fst (read_raw {| _gyro_range := 250;
                   _device := mock_device xd7 [x00; x01; x02; x03; x04; x05; x06] |}
                fresh_world) =
  fst (read_raw {| _gyro_range := 250;
                   _device := mock_device xd7 [xff; x01; x02; x03; x04; x05; x06] |}
                fresh_world).
Proof.
  refine (proj1 (read_raw_ignores_status
    {| _gyro_range := 250;
       _device := mock_device xd7 [x00; x01; x02; x03; x04; x05; x06] |}
    {| _gyro_range := 250;
       _device := mock_device xd7 [xff; x01; x02; x03; x04; x05; x06] |}
    bytearray7 bytearray7 [] [] x00 xff x01 x02 x03 x04 x05 x06
    _ _ _ _ _ _)); reflexivity.
Defined.

(** C10: whatever the seven bytes the bus delivers, [read_raw] returns
    three values that each lie between 0 and 65535, since each is the
    result of a mask with 0xFFFF. *)
Theorem read_raw_values_in_u16
    (self : FXAS21002C) (buf : list byte) (tr : list event)
    (b0 b1 b2 b3 b4 b5 b6 : byte) :
  length buf = 7%nat ->
  dev_write (_device self) (tr ++ [Acquire]) [x80] false = true ->
  dev_readinto (_device self) (tr ++ [Acquire; Write [x80] false]) 7 =
    Some [b0; b1; b2; b3; b4; b5; b6] ->
  exists x y z,
    fst (read_raw self {| _BUFFER := buf; trace := tr |}) = Ok (x, y, z) /\
    (exists a b c,
       x = Z.land a 0xFFFF /\ y = Z.land b 0xFFFF /\ z = Z.land c 0xFFFF) /\
    0 <= x <= 65535 /\ 0 <= y <= 65535 /\ 0 <= z <= 65535.
Proof.
  intros Hlen Hw Hr.
  exists (pack16 b1 b2), (pack16 b3 b4), (pack16 b5 b6).
  assert (fst (read_raw self {| _BUFFER := buf; trace := tr |}) =
          Ok (pack16 b1 b2, pack16 b3 b4, pack16 b5 b6)) as Hres.
  { rewrite (read_raw_run self buf tr b0 b1 b2 b3 b4 b5 b6 Hlen Hw Hr).
    reflexivity. }
  split; [exact Hres|]. split.
  - exact (read_raw_result_masked _ _ _ _ _ Hres).
  - unfold pack16. repeat split; apply mask16_range.
Qed.

Lemma read_raw_values_in_u16_witness :
  exists x y z,
    fst (read_raw {| _gyro_range := 500;
                     _device := mock_device xd7 [xff; xff; xff; xff; xff; xff; xff] |}
                  fresh_world) = Ok (x, y, z) /\
    (exists a b c,
       x = Z.land a 0xFFFF /\ y = Z.land b 0xFFFF /\ z = Z.land c 0xFFFF) /\
    0 <= x <= 65535 /\ 0 <= y <= 65535 /\ 0 <= z <= 65535.
Proof.
  apply (read_raw_values_in_u16
    {| _gyro_range := 500;
       _device := mock_device xd7 [xff; xff; xff; xff; xff; xff; xff] |}
    bytearray7 [] xff xff xff xff xff xff xff); reflexivity.
Defined.

(** ** Scaled samples *)

(** A reading that the bus serves, for a range of the table: [gyroscope]
    hands back the map object of the multiplication by the sensitivity of
    that range over the raw tuple; iterating it yields the three products,
    X then Y then Z. *)
Lemma gyroscope_run self c buf tr st xhi xlo yhi ylo zhi zlo :
  In (_gyro_range self, c) sensitivity_table ->
  length buf = 7%nat ->
  dev_write (_device self) (tr ++ [Acquire]) [x80] false = true ->
  dev_readinto (_device self) (tr ++ [Acquire; Write [x80] false]) 7 =
    Some [st; xhi; xlo; yhi; ylo; zhi; zlo] ->
  exists o,
    fst (gyroscope self {| _BUFFER := buf; trace := tr |}) = Ok o /\
    o = PyMapObject (fun x => int_mul_float x c)
          [pack16 xhi xlo; pack16 yhi ylo; pack16 zhi zlo] /\
    py_items o = Some [int_mul_float (pack16 xhi xlo) c;
                       int_mul_float (pack16 yhi ylo) c;
                       int_mul_float (pack16 zhi zlo) c].
Proof.
  intros Htab Hlen Hw Hr. unfold gyroscope, bind.
  rewrite (read_raw_run self buf tr st xhi xlo yhi ylo zhi zlo Hlen Hw Hr).
  destruct self as [r dev]. cbn [_gyro_range] in *. simpl in Htab.
  destruct Htab as [H | [H | [H | [H | []]]]];
    injection H as <- <-; unfold ret; cbn [fst];
    eexists; (split; [reflexivity|]); split; reflexivity.
Qed.

(** No path of [gyroscope] builds a tuple. *)
Lemma gyroscope_never_tuple self w o :
  fst (gyroscope self w) = Ok o -> is_tuple o = false.
Proof.
  unfold gyroscope, bind, ret. intros H.
  repeat match type of H with
         | context [match ?t with _ => _ end] =>
             destruct t eqn:?; try discriminate H
         | context [if ?t then _ else _] =>
             destruct t eqn:?; try discriminate H
         end;
    cbn [fst] in H; inversion H; reflexivity.
Qed.

(** C3: with range 250 and the burst response
    [0x00, 0x01, 0x02, 0, 0, 0, 0], [gyroscope] reads the raw sample
    (258, 0, 0) and returns the map object of the multiplication by
    0.0078125; this object is not a tuple, and an iteration over it yields
    2.015625, 0 and 0 in that order. *)
Theorem gyroscope_returns_map_object :
  exists o,
    fst (gyroscope (mock_sensor 250 [x00; x01; x02; x00; x00; x00; x00])
                   fresh_world) = Ok o /\
    o = PyMapObject (fun x => int_mul_float x _GYRO_SENSITIVITY_250DPS)
          [258; 0; 0] /\
    is_tuple o = false /\
    py_items o = Some [2.015625%float; 0%float; 0%float].
Proof.
  eexists. split; [reflexivity|]. split; [reflexivity|].
  split; reflexivity.
Qed.

(** C5: the four sensitivities are the floats of 0.0078125, 0.015625,
    0.03125 and 0.0625 without rounding, the powers of two 2^-7, 2^-6, 2^-5
    and 2^-4; with range 250 the raw sample (258, 0, 0) scales to
    2.015625, 0 and 0, and with range 2000 the raw value 16 scales to 1.0,
    both without rounding. *)
Theorem scaling_is_exact :
  (float_is_decimal _GYRO_SENSITIVITY_250DPS 78125 7 = true /\
   float_is_decimal _GYRO_SENSITIVITY_500DPS 15625 6 = true /\
   float_is_decimal _GYRO_SENSITIVITY_1000DPS 3125 5 = true /\
   float_is_decimal _GYRO_SENSITIVITY_2000DPS 625 4 = true) /\
  (_GYRO_SENSITIVITY_250DPS = Z.ldexp 1 (-7) /\
   _GYRO_SENSITIVITY_500DPS = Z.ldexp 1 (-6) /\
   _GYRO_SENSITIVITY_1000DPS = Z.ldexp 1 (-5) /\
   _GYRO_SENSITIVITY_2000DPS = Z.ldexp 1 (-4)) /\
  (int_mul_float 258 _GYRO_SENSITIVITY_250DPS = 2.015625%float /\
   float_is_decimal (int_mul_float 258 _GYRO_SENSITIVITY_250DPS)
     (258 * 78125) 7 = true /\
   int_mul_float 0 _GYRO_SENSITIVITY_250DPS = 0%float) /\
  (int_mul_float 16 _GYRO_SENSITIVITY_2000DPS = 1%float /\
   float_is_decimal (int_mul_float 16 _GYRO_SENSITIVITY_2000DPS)
     (16 * 625) 4 = true) /\
  option_map py_items
    (match fst (gyroscope (mock_sensor 250 [x00; x01; x02; x00; x00; x00; x00])
                          fresh_world) with
     | Ok o => Some o
     | Raise _ => None
     end) = Some (Some [2.015625%float; 0%float; 0%float]) /\
  option_map py_items
    (match fst (gyroscope (mock_sensor 2000 [x00; x00; x10; x00; x00; x00; x00])
                          fresh_world) with
     | Ok o => Some o
     | Raise _ => None
     end) = Some (Some [1%float; 0%float; 0%float]).
Proof.
  repeat split; vm_compute; reflexivity.
Qed.

(** * Further properties of the register protocols *)

(** ** Masking *)

(** [x & 0xFF] always fits a [bytearray] cell: the store never raises, and
    the byte stored is [x mod 256]. *)
Lemma mask8_byte (x : Z) :
  exists b, byte_of_int (Z.land x 0xFF) = Some b /\ int_of_byte b = x mod 256.
Proof.
  assert (Z.land x 0xFF = x mod 256) as ->.
  { change 0xFF with (Z.ones 8). rewrite Z.land_ones by lia. reflexivity. }
  pose proof (Z.mod_pos_bound x 256 ltac:(lia)) as Hm.
  unfold byte_of_int.
  destruct (Z.ltb_spec (x mod 256) 0) as [Hneg | _]; [lia|].
  destruct (Byte.of_N (Z.to_N (x mod 256))) as [b|] eqn:E.
  - exists b. split; [reflexivity|].
    unfold int_of_byte. rewrite (Byte.to_of_N _ E). lia.
  - apply Byte.of_N_None_iff in E. lia.
Qed.

(** ** Every path of the two register helpers and of the burst read *)

Lemma read_u8_cases dev address a b0 rest tr :
  byte_of_int (Z.land address 0xFF) = Some a ->
  _read_u8 dev address {| _BUFFER := b0 :: rest; trace := tr |} =
    if dev_write dev (tr ++ [Acquire]) [a] false then
      match dev_readinto dev (tr ++ [Acquire; Write [a] false]) 1 with
      | Some [b] =>
          (Ok (int_of_byte b),
           {| _BUFFER := b :: rest;
              trace := tr ++ [Acquire; Write [a] false; Read 1 [b]; Release] |})
      | _ =>
          (Raise OSError,
           {| _BUFFER := a :: rest;
              trace := tr ++ [Acquire; Write [a] false; Release] |})
      end
    else
      (Raise OSError,
       {| _BUFFER := a :: rest; trace := tr ++ [Acquire; Release] |}).
Proof.
  intros Ha.
  unfold _read_u8, with_device, bind, buffer_set, device_write,
    device_readinto, log, buffer_get.
  cbn [_BUFFER trace length Nat.ltb Nat.leb fst snd].
  rewrite Ha. cbn [_BUFFER trace list_set firstn].
  destruct (dev_write dev (tr ++ [Acquire]) [a] false);
    cbn [_BUFFER trace fst snd]; norm_trace; [|reflexivity].
  destruct (dev_readinto dev (tr ++ [Acquire; Write [a] false]) 1)
    as [[|b [|b' data]]|];
    cbn [_BUFFER trace length Nat.eqb skipn app fst snd nth_error];
    norm_trace; reflexivity.
Qed.

Lemma write_u8_cases dev address val a v b0 b1 rest tr :
  byte_of_int (Z.land address 0xFF) = Some a ->
  byte_of_int (Z.land val 0xFF) = Some v ->
  _write_u8 dev address val {| _BUFFER := b0 :: b1 :: rest; trace := tr |} =
    if dev_write dev (tr ++ [Acquire]) [a; v] true then
      (Ok tt,
       {| _BUFFER := a :: v :: rest;
          trace := tr ++ [Acquire; Write [a; v] true; Release] |})
    else
      (Raise OSError,
       {| _BUFFER := a :: v :: rest; trace := tr ++ [Acquire; Release] |}).
Proof.
  intros Ha Hv.
  unfold _write_u8, with_device, bind, buffer_set, device_write, log.
  cbn [_BUFFER trace length Nat.ltb Nat.leb fst snd].
  rewrite Ha. cbn [_BUFFER trace list_set length Nat.ltb Nat.leb].
  rewrite Hv. cbn [_BUFFER trace list_set firstn].
  destruct (dev_write dev (tr ++ [Acquire]) [a; v] true);
    cbn [_BUFFER trace fst snd]; norm_trace; reflexivity.
Qed.

Lemma length7_cases {A} (data : list A) :
  (exists a b c d e f g, data = [a; b; c; d; e; f; g]) \/
  (length data =? 7)%nat = false.
Proof.
  destruct (Nat.eqb_spec (length data) 7) as [E | E].
  - left. exact (length7_inv data E).
  - right. reflexivity.
Qed.

Lemma read_raw_cases self b0 b1 b2 b3 b4 b5 b6 tr :
  let rest := [b1; b2; b3; b4; b5; b6] in
  read_raw self {| _BUFFER := b0 :: rest; trace := tr |} =
    if dev_write (_device self) (tr ++ [Acquire]) [x80] false then
      match dev_readinto (_device self) (tr ++ [Acquire; Write [x80] false]) 7 with
      | Some [st; xhi; xlo; yhi; ylo; zhi; zlo] =>
          (Ok (pack16 xhi xlo, pack16 yhi ylo, pack16 zhi zlo),
           {| _BUFFER := [st; xhi; xlo; yhi; ylo; zhi; zlo];
              trace := tr ++ [Acquire; Write [x80] false;
                              Read 7 [st; xhi; xlo; yhi; ylo; zhi; zlo];
                              Release] |})
      | _ =>
          (Raise OSError,
           {| _BUFFER := x80 :: rest;
              trace := tr ++ [Acquire; Write [x80] false; Release] |})
      end
    else
      (Raise OSError,
       {| _BUFFER := x80 :: rest; trace := tr ++ [Acquire; Release] |}).
Proof.
  intros rest. subst rest.
  unfold read_raw, with_device, bind, buffer_set, device_write,
    device_readinto_all, device_readinto, log, buffer_get, ret.
  change (byte_of_int (Z.lor _GYRO_REGISTER_STATUS 128)) with (Some x80).
  cbn [_BUFFER trace length Nat.ltb Nat.leb fst snd list_set firstn].
  destruct (dev_write (_device self) (tr ++ [Acquire]) [x80] false);
    cbn [_BUFFER trace length fst snd]; norm_trace; [|reflexivity].
  destruct (dev_readinto (_device self) (tr ++ [Acquire; Write [x80] false]) 7)
    as [data|]; [|cbn [_BUFFER trace fst snd]; norm_trace; reflexivity].
  destruct (length7_cases data) as [(c0 & c1 & c2 & c3 & c4 & c5 & c6 & ->) | E].
  - cbn [_BUFFER trace length Nat.eqb skipn app fst snd nth_error].
    norm_trace. reflexivity.
  - rewrite E. cbn [_BUFFER trace fst snd]. norm_trace.
    do 7 (destruct data as [|? data]; [reflexivity|]).
    destruct data; [discriminate E | reflexivity].
Qed.

(** ** The register helpers on any address and value *)

(** X1: [_write_u8] accepts any Python ints: the address and the value are
    reduced modulo 256 by the masks, so the [bytearray] stores never raise;
    when the bus acknowledges, exactly one locked write of the two bytes,
    ended by a stop, is sent, and only the first two cells of the shared
    buffer change. *)
Theorem write_u8_sends_masked_pair
    (dev : I2CDevice) (address val : Z) (buf : list byte) (tr : list event) :
  length buf = 7%nat ->
  (forall data, dev_write dev (tr ++ [Acquire]) data true = true) ->
  exists a v w',
    int_of_byte a = address mod 256 /\
    int_of_byte v = val mod 256 /\
    _write_u8 dev address val {| _BUFFER := buf; trace := tr |} = (Ok tt, w') /\
    trace w' = tr ++ [Acquire; Write [a; v] true; Release] /\
    _BUFFER w' = a :: v :: skipn 2 buf.
Proof.
  intros Hlen Hack.
  destruct (length7_inv buf Hlen) as (b0 & b1 & b2 & b3 & b4 & b5 & b6 & ->).
  destruct (mask8_byte address) as (a & Ha & Hav).
  destruct (mask8_byte val) as (v & Hv & Hvv).
  exists a, v. eexists. split; [exact Hav|]. split; [exact Hvv|].
  rewrite (write_u8_cases dev address val a v _ _ _ tr Ha Hv), Hack.
  split; [reflexivity|]. split; reflexivity.
Qed.

Lemma write_u8_sends_masked_pair_witness :
  exists a v w',
    int_of_byte a = 0x113 mod 256 /\
    int_of_byte v = (-1) mod 256 /\
    _write_u8 (mock_device xd7 []) 0x113 (-1) fresh_world = (Ok tt, w') /\
    trace w' = [] ++ [Acquire; Write [a; v] true; Release] /\
    _BUFFER w' = a :: v :: skipn 2 bytearray7.
Proof.
  apply (write_u8_sends_masked_pair (mock_device xd7 []) 0x113 (-1)
           bytearray7 []).
  - reflexivity.
  - intros data. reflexivity.
Defined.

(** X2: [_read_u8] accepts any Python int as address; when the bus serves
    it, one locked transaction writes the address modulo 256 without a
    stop and reads one byte, the value returned is that byte, between 0 and
    255, and only the first cell of the shared buffer changes. *)
Theorem read_u8_returns_bus_byte
    (dev : I2CDevice) (address : Z) (b : byte) (buf : list byte)
    (tr : list event) :
  length buf = 7%nat ->
  (forall data, dev_write dev (tr ++ [Acquire]) data false = true) ->
  (forall data,
     dev_readinto dev (tr ++ [Acquire; Write data false]) 1 = Some [b]) ->
  exists a w',
    int_of_byte a = address mod 256 /\
    _read_u8 dev address {| _BUFFER := buf; trace := tr |} =
      (Ok (int_of_byte b), w') /\
    0 <= int_of_byte b <= 255 /\
    trace w' = tr ++ [Acquire; Write [a] false; Read 1 [b]; Release] /\
    _BUFFER w' = b :: skipn 1 buf.
Proof.
  intros Hlen Hack Hread.
  destruct (length7_inv buf Hlen) as (b0 & b1 & b2 & b3 & b4 & b5 & b6 & ->).
  destruct (mask8_byte address) as (a & Ha & Hav).
  exists a. eexists. split; [exact Hav|].
  rewrite (read_u8_cases dev address a _ _ tr Ha), Hack, Hread.
  split; [reflexivity|].
  pose proof (int_of_byte_range b).
  split; [lia|]. split; reflexivity.
Qed.

Lemma read_u8_returns_bus_byte_witness :
  exists a w',
    int_of_byte a = 0x10C mod 256 /\
    _read_u8 (mock_device xd7 []) 0x10C fresh_world =
      (Ok (int_of_byte xd7), w') /\
    0 <= int_of_byte xd7 <= 255 /\
    trace w' = [] ++ [Acquire; Write [a] false; Read 1 [xd7]; Release] /\
    _BUFFER w' = xd7 :: skipn 1 bytearray7.
Proof.
  apply (read_u8_returns_bus_byte (mock_device xd7 []) 0x10C xd7
           bytearray7 []).
  - reflexivity.
  - intros data. reflexivity.
  - intros data. reflexivity.
Defined.

(** ** Bus failures *)

(** X3: when the bus refuses the address write of [_read_u8], or accepts
    it and then fails the read, [_read_u8] raises [OSError]; the lock is
    released all the same, and after a refused write no read is tried. *)
Theorem read_u8_bus_failure
    (dev : I2CDevice) (address : Z) (buf : list byte) (tr : list event) :
  length buf = 7%nat ->
  ((forall data, dev_write dev (tr ++ [Acquire]) data false = false) ->
   exists w',
     _read_u8 dev address {| _BUFFER := buf; trace := tr |} =
       (Raise OSError, w') /\
     trace w' = tr ++ [Acquire; Release]) /\
  ((forall data, dev_write dev (tr ++ [Acquire]) data false = true) ->
   (forall data,
      dev_readinto dev (tr ++ [Acquire; Write data false]) 1 = None) ->
   exists a w',
     int_of_byte a = address mod 256 /\
     _read_u8 dev address {| _BUFFER := buf; trace := tr |} =
       (Raise OSError, w') /\
     trace w' = tr ++ [Acquire; Write [a] false; Release]).
Proof.
  intros Hlen.
  destruct (length7_inv buf Hlen) as (b0 & b1 & b2 & b3 & b4 & b5 & b6 & ->).
  destruct (mask8_byte address) as (a & Ha & Hav).
  rewrite (read_u8_cases dev address a _ _ tr Ha).
  split.
  - intros Hnack. rewrite Hnack. eexists. split; reflexivity.
  - intros Hack Hfail. rewrite Hack, Hfail.
    exists a. eexists. split; [exact Hav|]. split; reflexivity.
Qed.

Lemma read_u8_bus_failure_witness :
  (exists w',
     _read_u8 (failing_device 0 true xd7 []) 0x0C fresh_world =
       (Raise OSError, w') /\
     trace w' = [] ++ [Acquire; Release]) /\
  (exists a w',
     int_of_byte a = 0x0C mod 256 /\
     _read_u8 (failing_device 9 false xd7 []) 0x0C fresh_world =
       (Raise OSError, w') /\
     trace w' = [] ++ [Acquire; Write [a] false; Release]).
Proof.
  split.
  - apply (proj1 (read_u8_bus_failure (failing_device 0 true xd7 []) 0x0C
                    bytearray7 [] eq_refl)).
    intros data. reflexivity.
  - apply (proj2 (read_u8_bus_failure (failing_device 9 false xd7 []) 0x0C
                    bytearray7 [] eq_refl)).
    + intros data. reflexivity.
    + intros data. reflexivity.
Defined.

(** X4: when the bus refuses the write of [_write_u8], it raises
    [OSError], nothing is recorded as written, and the lock is released. *)
Theorem write_u8_bus_failure
    (dev : I2CDevice) (address val : Z) (buf : list byte) (tr : list event) :
  length buf = 7%nat ->
  (forall data, dev_write dev (tr ++ [Acquire]) data true = false) ->
  exists w',
    _write_u8 dev address val {| _BUFFER := buf; trace := tr |} =
      (Raise OSError, w') /\
    trace w' = tr ++ [Acquire; Release].
Proof.
  intros Hlen Hnack.
  destruct (length7_inv buf Hlen) as (b0 & b1 & b2 & b3 & b4 & b5 & b6 & ->).
  destruct (mask8_byte address) as (a & Ha & _).
  destruct (mask8_byte val) as (v & Hv & _).
  rewrite (write_u8_cases dev address val a v _ _ _ tr Ha Hv), Hnack.
  eexists. split; reflexivity.
Qed.

Lemma write_u8_bus_failure_witness :
  exists w',
    _write_u8 (failing_device 0 true xd7 []) 0x13 0x0E fresh_world =
      (Raise OSError, w') /\
    trace w' = [] ++ [Acquire; Release].
Proof.
  apply (write_u8_bus_failure (failing_device 0 true xd7 []) 0x13 0x0E
           bytearray7 []).
  - reflexivity.
  - intros data. reflexivity.
Defined.

(** X5: when the bus refuses the register-pointer write of [read_raw], or
    accepts it and then fails the 7-byte read, [read_raw] raises [OSError]
    and returns no sample; the lock is released all the same, and after a
    refused write no read is tried. *)
Theorem read_raw_bus_failure
    (self : FXAS21002C) (buf : list byte) (tr : list event) :
  length buf = 7%nat ->
  (dev_write (_device self) (tr ++ [Acquire]) [x80] false = false ->
   exists w',
     read_raw self {| _BUFFER := buf; trace := tr |} = (Raise OSError, w') /\
     trace w' = tr ++ [Acquire; Release]) /\
  (dev_write (_device self) (tr ++ [Acquire]) [x80] false = true ->
   dev_readinto (_device self) (tr ++ [Acquire; Write [x80] false]) 7 = None ->
   exists w',
     read_raw self {| _BUFFER := buf; trace := tr |} = (Raise OSError, w') /\
     trace w' = tr ++ [Acquire; Write [x80] false; Release]).
Proof.
  intros Hlen.
  destruct (length7_inv buf Hlen) as (b0 & b1 & b2 & b3 & b4 & b5 & b6 & ->).
  rewrite (read_raw_cases self b0 b1 b2 b3 b4 b5 b6 tr).
  split.
  - intros Hnack. rewrite Hnack. eexists. split; reflexivity.
  - intros Hack Hfail. rewrite Hack, Hfail. eexists. split; reflexivity.
Qed.

Lemma read_raw_bus_failure_witness :
  (exists w',
     read_raw {| _gyro_range := 250; _device := failing_device 0 true xd7 [] |}
              fresh_world = (Raise OSError, w') /\
     trace w' = [] ++ [Acquire; Release]) /\
  (exists w',
     read_raw {| _gyro_range := 250; _device := failing_device 9 false xd7 [] |}
              fresh_world = (Raise OSError, w') /\
     trace w' = [] ++ [Acquire; Write [x80] false; Release]).
Proof.
  split.
  - apply (proj1 (read_raw_bus_failure
      {| _gyro_range := 250; _device := failing_device 0 true xd7 [] |}
      bytearray7 [] eq_refl)). reflexivity.
  - apply (proj2 (read_raw_bus_failure
      {| _gyro_range := 250; _device := failing_device 9 false xd7 [] |}
      bytearray7 [] eq_refl)); reflexivity.
Defined.

(** ** Every path of the constructor *)

Lemma init_cases dev gyro_range cfg b0 b1 b2 b3 b4 b5 b6 tr :
  In (gyro_range, cfg) range_config_table ->
  let rest := [b2; b3; b4; b5; b6] in
  __init__ dev gyro_range
    {| _BUFFER := b0 :: b1 :: rest; trace := tr |} =
    if dev_write dev (tr ++ [Acquire]) [x0c] false then
      match dev_readinto dev (tr ++ [Acquire; Write [x0c] false]) 1 with
      | Some [b] =>
          let probe := [Acquire; Write [x0c] false; Read 1 [b]; Release] in
          if int_of_byte b =? 0xD7 then
            if dev_write dev (tr ++ probe ++ [Acquire]) [x0d; cfg] true then
              let range_set := [Acquire; Write [x0d; cfg] true; Release] in
              if dev_write dev (tr ++ probe ++ range_set ++ [Acquire])
                   [x13; x0e] true
              then
                (Ok {| _gyro_range := gyro_range; _device := dev |},
                 {| _BUFFER := x13 :: x0e :: rest;
                    trace := tr ++ probe ++ range_set ++
                             [Acquire; Write [x13; x0e] true; Release;
                              Sleep 0x1.999999999999ap-4%float] |})
              else
                (Raise OSError,
                 {| _BUFFER := x13 :: x0e :: rest;
                    trace := tr ++ probe ++ range_set ++ [Acquire; Release] |})
            else
              (Raise OSError,
               {| _BUFFER := x0d :: cfg :: rest;
                  trace := tr ++ probe ++ [Acquire; Release] |})
          else
            (Raise (RuntimeError wiring_message),
             {| _BUFFER := b :: b1 :: rest; trace := tr ++ probe |})
      | _ =>
          (Raise OSError,
           {| _BUFFER := x0c :: b1 :: rest;
              trace := tr ++ [Acquire; Write [x0c] false; Release] |})
      end
    else
      (Raise OSError,
       {| _BUFFER := x0c :: b1 :: rest; trace := tr ++ [Acquire; Release] |}).
Proof.
  intros Htab rest. subst rest.
  destruct (ctrlReg0_of_table _ _ Htab) as [Hopt Hcfg].
  unfold __init__. rewrite Hopt. cbn [negb _device].
  unfold bind at 1.
  rewrite (read_u8_cases dev _GYRO_REGISTER_WHO_AM_I x0c b0 _ tr eq_refl).
  destruct (dev_write dev (tr ++ [Acquire]) [x0c] false); [|reflexivity].
  destruct (dev_readinto dev (tr ++ [Acquire; Write [x0c] false]) 1)
    as [[|b [|b' data]]|]; try reflexivity.
  cbn zeta. change _FXAS21002C_ID with 215.
  destruct (int_of_byte b =? 215); cbn [negb]; [|reflexivity].
  unfold bind at 1.
  rewrite (write_u8_cases dev _GYRO_REGISTER_CTRL_REG0 _ x0d cfg b b1 _ _
             eq_refl Hcfg).
  norm_trace.
  destruct (dev_write dev _ [x0d; cfg] true); [|norm_trace; reflexivity].
  unfold bind at 1.
  rewrite (write_u8_cases dev _GYRO_REGISTER_CTRL_REG1 0x0E x13 x0e x0d cfg _ _
             eq_refl eq_refl).
  norm_trace.
  destruct (dev_write dev _ [x13; x0e] true); [|norm_trace; reflexivity].
  unfold bind, time_sleep, log, ret. cbn [_BUFFER trace]. norm_trace.
  reflexivity.
Qed.

Lemma options_in_table gyro_range :
  range_in_options gyro_range = true ->
  exists cfg, In (gyro_range, cfg) range_config_table.
Proof.
  intros H. apply range_in_options_spec in H. simpl in H.
  destruct H as [H | [H | [H | [H | []]]]]; subst;
    [exists x03 | exists x02 | exists x01 | exists x00]; simpl; intuition.
Qed.

(** X6: with a listed range, when the identity probe of [__init__] fails on
    the bus (the address write is refused, or the read fails), the
    constructor raises [OSError]: no [RuntimeError] about the wiring, no
    driver object, no register write, and the lock is released. *)
Theorem init_probe_bus_failure
    (dev : I2CDevice) (gyro_range : Z) (buf : list byte) (tr : list event) :
  length buf = 7%nat ->
  In gyro_range [250; 500; 1000; 2000] ->
  (dev_write dev (tr ++ [Acquire]) [x0c] false = false ->
   exists w',
     __init__ dev gyro_range {| _BUFFER := buf; trace := tr |} =
       (Raise OSError, w') /\
     trace w' = tr ++ [Acquire; Release]) /\
  (dev_write dev (tr ++ [Acquire]) [x0c] false = true ->
   dev_readinto dev (tr ++ [Acquire; Write [x0c] false]) 1 = None ->
   exists w',
     __init__ dev gyro_range {| _BUFFER := buf; trace := tr |} =
       (Raise OSError, w') /\
     trace w' = tr ++ [Acquire; Write [x0c] false; Release]).
Proof.
  intros Hlen Hin.
  destruct (length7_inv buf Hlen) as (b0 & b1 & b2 & b3 & b4 & b5 & b6 & ->).
  apply range_in_options_spec in Hin.
  destruct (options_in_table _ Hin) as [cfg Htab].
  rewrite (init_cases dev gyro_range cfg b0 b1 b2 b3 b4 b5 b6 tr Htab).
  split.
  - intros Hnack. rewrite Hnack. eexists. split; reflexivity.
  - intros Hack Hfail. rewrite Hack, Hfail. eexists. split; reflexivity.
Qed.

Lemma init_probe_bus_failure_witness :
  (exists w',
     __init__ (failing_device 0 true xd7 []) 250 fresh_world =
       (Raise OSError, w') /\
     trace w' = [] ++ [Acquire; Release]) /\
  (exists w',
     __init__ (failing_device 9 false xd7 []) 250 fresh_world =
       (Raise OSError, w') /\
     trace w' = [] ++ [Acquire; Write [x0c] false; Release]).
Proof.
  assert (In 250 [250; 500; 1000; 2000]) as Hin by (simpl; left; reflexivity).
  split.
  - apply (proj1 (init_probe_bus_failure (failing_device 0 true xd7 []) 250
                    bytearray7 [] eq_refl Hin)). reflexivity.
  - apply (proj2 (init_probe_bus_failure (failing_device 9 false xd7 []) 250
                    bytearray7 [] eq_refl Hin)); reflexivity.
Defined.

(** X7: when the identity is right but the bus refuses the write of the
    range to CTRL_REG0, [__init__] raises [OSError] at once: the activation
    byte is never sent to CTRL_REG1 and the constructor does not sleep. *)
Theorem init_range_write_failure
    (dev : I2CDevice) (gyro_range : Z) (cfg : byte)
    (buf : list byte) (tr : list event) :
  length buf = 7%nat ->
  In (gyro_range, cfg) range_config_table ->
  dev_write dev (tr ++ [Acquire]) [x0c] false = true ->
  dev_readinto dev (tr ++ [Acquire; Write [x0c] false]) 1 = Some [xd7] ->
  dev_write dev
    (tr ++ [Acquire; Write [x0c] false; Read 1 [xd7]; Release; Acquire])
    [x0d; cfg] true = false ->
  exists evs w',
    __init__ dev gyro_range {| _BUFFER := buf; trace := tr |} =
      (Raise OSError, w') /\
    trace w' = tr ++ evs /\
    evs = [Acquire; Write [x0c] false; Read 1 [xd7]; Release;
           Acquire; Release] /\
    register_writes _GYRO_REGISTER_CTRL_REG1 evs = [] /\
    filter is_sleep evs = [].
Proof.
  intros Hlen Htab Hw0 Hr Hw1.
  destruct (length7_inv buf Hlen) as (b0 & b1 & b2 & b3 & b4 & b5 & b6 & ->).
  rewrite (init_cases dev gyro_range cfg b0 b1 b2 b3 b4 b5 b6 tr Htab).
  rewrite Hw0, Hr. cbn zeta.
  change (int_of_byte xd7 =? 215) with true. cbn iota.
  cbn [app]. rewrite Hw1.
  do 2 eexists. split; [reflexivity|]. cbn [trace].
  split; [reflexivity|]. split; [reflexivity|]. split; reflexivity.
Qed.

Lemma init_range_write_failure_witness :
  exists evs w',
    __init__ (failing_device 1 true xd7 []) 1000 fresh_world =
      (Raise OSError, w') /\
    trace w' = [] ++ evs /\
    evs = [Acquire; Write [x0c] false; Read 1 [xd7]; Release;
           Acquire; Release] /\
    register_writes _GYRO_REGISTER_CTRL_REG1 evs = [] /\
    filter is_sleep evs = [].
Proof.
  apply (init_range_write_failure (failing_device 1 true xd7 []) 1000 x01
           bytearray7 []).
  - reflexivity.
  - simpl. right. right. left. reflexivity.
  - reflexivity.
  - reflexivity.
  - reflexivity.
Defined.

(** X8: when the range was written to CTRL_REG0 and the bus then refuses
    the activation write to CTRL_REG1, [__init__] raises [OSError] and
    gives no driver object, but the range write stays done: nothing is
    rolled back, and the constructor does not sleep. *)
Theorem init_activation_write_failure
    (dev : I2CDevice) (gyro_range : Z) (cfg : byte)
    (buf : list byte) (tr : list event) :
  length buf = 7%nat ->
  In (gyro_range, cfg) range_config_table ->
  dev_write dev (tr ++ [Acquire]) [x0c] false = true ->
  dev_readinto dev (tr ++ [Acquire; Write [x0c] false]) 1 = Some [xd7] ->
  dev_write dev
    (tr ++ [Acquire; Write [x0c] false; Read 1 [xd7]; Release; Acquire])
    [x0d; cfg] true = true ->
  dev_write dev
    (tr ++ [Acquire; Write [x0c] false; Read 1 [xd7]; Release;
            Acquire; Write [x0d; cfg] true; Release; Acquire])
    [x13; x0e] true = false ->
  exists evs w',
    __init__ dev gyro_range {| _BUFFER := buf; trace := tr |} =
      (Raise OSError, w') /\
    trace w' = tr ++ evs /\
    evs = [Acquire; Write [x0c] false; Read 1 [xd7]; Release;
           Acquire; Write [x0d; cfg] true; Release;
           Acquire; Release] /\
    register_writes _GYRO_REGISTER_CTRL_REG0 evs = [Write [x0d; cfg] true] /\
    register_writes _GYRO_REGISTER_CTRL_REG1 evs = [] /\
    filter is_sleep evs = [].
Proof.
  intros Hlen Htab Hw0 Hr Hw1 Hw2.
  destruct (length7_inv buf Hlen) as (b0 & b1 & b2 & b3 & b4 & b5 & b6 & ->).
  rewrite (init_cases dev gyro_range cfg b0 b1 b2 b3 b4 b5 b6 tr Htab).
  rewrite Hw0, Hr. cbn zeta.
  change (int_of_byte xd7 =? 215) with true. cbn iota.
  cbn [app]. rewrite Hw1, Hw2.
  do 2 eexists. split; [reflexivity|]. cbn [trace].
  split; [reflexivity|]. split; [reflexivity|].
  split; [|split; reflexivity].
  unfold register_writes. cbn [filter is_register_write].
  change (int_of_byte x0d =? _GYRO_REGISTER_CTRL_REG0) with true.
  reflexivity.
Qed.

Lemma init_activation_write_failure_witness :
  exists evs w',
    __init__ (failing_device 2 true xd7 []) 2000 fresh_world =
      (Raise OSError, w') /\
    trace w' = [] ++ evs /\
    evs = [Acquire; Write [x0c] false; Read 1 [xd7]; Release;
           Acquire; Write [x0d; x00] true; Release;
           Acquire; Release] /\
    register_writes _GYRO_REGISTER_CTRL_REG0 evs = [Write [x0d; x00] true] /\
    register_writes _GYRO_REGISTER_CTRL_REG1 evs = [] /\
    filter is_sleep evs = [].
Proof.
  apply (init_activation_write_failure (failing_device 2 true xd7 []) 2000 x00
           bytearray7 []).
  - reflexivity.
  - simpl. right. right. right. left. reflexivity.
  - reflexivity.
  - reflexivity.
  - reflexivity.
  - reflexivity.
Defined.



(** What a returned driver object tells about the run of [__init__]. *)
Lemma init_ok_shape
    (dev : I2CDevice) (gyro_range : Z) (buf : list byte) (tr : list event)
    (drv : FXAS21002C) (w' : world) :
  length buf = 7%nat ->
  __init__ dev gyro_range {| _BUFFER := buf; trace := tr |} = (Ok drv, w') ->
  exists cfg,
    In (gyro_range, cfg) range_config_table /\
    drv = {| _gyro_range := gyro_range; _device := dev |} /\
    dev_readinto dev (tr ++ [Acquire; Write [x0c] false]) 1 = Some [xd7] /\
    trace w' =
      tr ++ [Acquire; Write [x0c] false; Read 1 [xd7]; Release;
             Acquire; Write [x0d; cfg] true; Release;
             Acquire; Write [x13; x0e] true; Release;
             Sleep 0x1.999999999999ap-4%float] /\
    length (_BUFFER w') = 7%nat.
Proof.
  intros Hlen Hrun.
  destruct (length7_inv buf Hlen) as (b0 & b1 & b2 & b3 & b4 & b5 & b6 & ->).
  destruct (range_in_options gyro_range) eqn:Hopt.
  2:{ unfold __init__ in Hrun. rewrite Hopt in Hrun. discriminate Hrun. }
  destruct (options_in_table _ Hopt) as [cfg Htab].
  exists cfg. split; [exact Htab|].
  rewrite (init_cases dev gyro_range cfg b0 b1 b2 b3 b4 b5 b6 tr Htab) in Hrun.
  destruct (dev_write dev (tr ++ [Acquire]) [x0c] false); [|discriminate Hrun].
  destruct (dev_readinto dev (tr ++ [Acquire; Write [x0c] false]) 1)
    as [[|b [|b' data]]|]; try discriminate Hrun.
  cbn zeta in Hrun.
  destruct (int_of_byte b =? 215) eqn:Hid; [|discriminate Hrun].
  apply Z.eqb_eq in Hid.
  assert (b = xd7) as -> by (apply int_of_byte_inj; rewrite Hid; reflexivity).
  repeat match type of Hrun with
         | context [if ?t then _ else _] => destruct t; try discriminate Hrun
         end.
  inversion Hrun. subst.
  split; [reflexivity|]. split; [reflexivity|]. split; reflexivity.
Qed.

(** X10: a driver object is only ever returned after the full start-up
    sequence: if [__init__] returns, the range is a listed one, the identity
    register was read as 0xD7, and the bus saw, in order, the identity
    read, the range write to CTRL_REG0, the activation write to CTRL_REG1
    and then the sleep. *)
Theorem init_ok_inversion
    (dev : I2CDevice) (gyro_range : Z) (buf : list byte) (tr : list event)
    (drv : FXAS21002C) (w' : world) :
  length buf = 7%nat ->
  __init__ dev gyro_range {| _BUFFER := buf; trace := tr |} = (Ok drv, w') ->
  exists cfg,
    In (gyro_range, cfg) range_config_table /\
    drv = {| _gyro_range := gyro_range; _device := dev |} /\
    dev_readinto dev (tr ++ [Acquire; Write [x0c] false]) 1 = Some [xd7] /\
    trace w' =
      tr ++ [Acquire; Write [x0c] false; Read 1 [xd7]; Release;
             Acquire; Write [x0d; cfg] true; Release;
             Acquire; Write [x13; x0e] true; Release;
             Sleep 0x1.999999999999ap-4%float] /\
    length (_BUFFER w') = 7%nat.
Proof.
  intros Hlen Hrun.
  exact (init_ok_shape dev gyro_range buf tr drv w' Hlen Hrun).
Qed.

Lemma init_ok_inversion_witness :
  exists cfg,
    In (250, cfg) range_config_table /\
    {| _gyro_range := 250; _device := mock_device xd7 [] |} =
      {| _gyro_range := 250; _device := mock_device xd7 [] |} /\
    dev_readinto (mock_device xd7 []) ([] ++ [Acquire; Write [x0c] false]) 1 =
      Some [xd7] /\
    trace (snd (__init__ (mock_device xd7 []) 250 fresh_world)) =
      [] ++ [Acquire; Write [x0c] false; Read 1 [xd7]; Release;
             Acquire; Write [x0d; cfg] true; Release;
             Acquire; Write [x13; x0e] true; Release;
             Sleep 0x1.999999999999ap-4%float] /\
    length (_BUFFER (snd (__init__ (mock_device xd7 []) 250 fresh_world))) = 7%nat.
Proof.
  apply (init_ok_inversion (mock_device xd7 []) 250 bytearray7 []
           {| _gyro_range := 250; _device := mock_device xd7 [] |}
           (snd (__init__ (mock_device xd7 []) 250 fresh_world))).
  - reflexivity.
  - reflexivity.
Defined.

(** ** Scaling adds nothing to the bus *)

Lemma gyroscope_state self w :
  snd (gyroscope self w) = snd (read_raw self w).
Proof.
  unfold gyroscope, bind.
  destruct (read_raw self w) as [[raw | e] w']; [|reflexivity].
  unfold ret.
  repeat match goal with
         | |- context [if ?t then _ else _] => destruct t
         end; reflexivity.
Qed.

(** X11: [gyroscope] does one [read_raw] and nothing else on the bus or on
    the shared buffer: the state it leaves is the state [read_raw] leaves;
    it raises exactly when [read_raw] raises, and then the same
    exception. *)
Theorem gyroscope_is_one_read_raw (self : FXAS21002C) (w : world) :
  snd (gyroscope self w) = snd (read_raw self w) /\
  (forall e, fst (read_raw self w) = Raise e ->
             fst (gyroscope self w) = Raise e) /\
  (forall raw, fst (read_raw self w) = Ok raw ->
               exists o, fst (gyroscope self w) = Ok o).
Proof.
  split; [apply gyroscope_state|].
  unfold gyroscope, bind.
  destruct (read_raw self w) as [[raw | e] w']; cbn [fst]; split.
  - intros e H. discriminate H.
  - intros raw' _. unfold ret.
    repeat match goal with
           | |- context [if ?t then _ else _] => destruct t
           end; eexists; reflexivity.
  - intros e' H. inversion H. reflexivity.
  - intros raw H. discriminate H.
Qed.

Lemma gyroscope_is_one_read_raw_witness :
  fst (gyroscope (mock_sensor 250 []) fresh_world) = Raise OSError.
Proof.
  apply (proj1 (proj2 (gyroscope_is_one_read_raw (mock_sensor 250 [])
                         fresh_world))).
  reflexivity.
Defined.

(** X12: a driver object whose range attribute holds none of the four
    options (the constructor never leaves one) makes [gyroscope] fall
    through its [if]/[elif] chain: the burst read is done as usual and the
    property returns [None] instead of raising. *)
Theorem gyroscope_unlisted_range_returns_None
    (self : FXAS21002C) (buf : list byte) (tr : list event)
    (b0 b1 b2 b3 b4 b5 b6 : byte) :
  ~ In (_gyro_range self) [250; 500; 1000; 2000] ->
  length buf = 7%nat ->
  dev_write (_device self) (tr ++ [Acquire]) [x80] false = true ->
  dev_readinto (_device self) (tr ++ [Acquire; Write [x80] false]) 7 =
    Some [b0; b1; b2; b3; b4; b5; b6] ->
  fst (gyroscope self {| _BUFFER := buf; trace := tr |}) = Ok PyNone /\
  trace (snd (gyroscope self {| _BUFFER := buf; trace := tr |})) =
    tr ++ [Acquire; Write [x80] false;
           Read 7 [b0; b1; b2; b3; b4; b5; b6]; Release].
Proof.
  intros Hout Hlen Hw Hr.
  split.
  - unfold gyroscope, bind.
    rewrite (read_raw_run self buf tr b0 b1 b2 b3 b4 b5 b6 Hlen Hw Hr).
    unfold GYRO_RANGE_250DPS, GYRO_RANGE_500DPS, GYRO_RANGE_1000DPS,
      GYRO_RANGE_2000DPS.
    repeat match goal with
           | |- context [?r =? ?k] =>
               destruct (Z.eqb_spec r k) as [E | _];
               [exfalso; apply Hout; rewrite E; simpl; tauto|]
           end.
    reflexivity.
  - rewrite gyroscope_state.
    rewrite (read_raw_run self buf tr b0 b1 b2 b3 b4 b5 b6 Hlen Hw Hr).
    reflexivity.
Qed.

Lemma gyroscope_unlisted_range_returns_None_witness :
  fst (gyroscope (mock_sensor 125 [x00; x01; x02; x03; x04; x05; x06])
                 fresh_world) = Ok PyNone /\
  trace (snd (gyroscope (mock_sensor 125 [x00; x01; x02; x03; x04; x05; x06])
                        fresh_world)) =
    [] ++ [Acquire; Write [x80] false;
           Read 7 [x00; x01; x02; x03; x04; x05; x06]; Release].
Proof.
  apply (gyroscope_unlisted_range_returns_None
           (mock_sensor 125 [x00; x01; x02; x03; x04; x05; x06])
           bytearray7 [] x00 x01 x02 x03 x04 x05 x06).
  - simpl. intros [H | [H | [H | [H | []]]]]; discriminate H.
  - reflexivity.
  - reflexivity.
  - reflexivity.
Defined.

(** X13: construction and reading compose: on the driver object that
    [__init__] returned for a range, a served [gyroscope] never gives
    [None]; the items it yields are the three raw values times the
    sensitivity that the table gives for the range passed to the
    constructor. *)
Theorem init_then_gyroscope
    (dev : I2CDevice) (gyro_range : Z) (buf : list byte) (tr : list event)
    (drv : FXAS21002C) (w1 : world) (st xhi xlo yhi ylo zhi zlo : byte) :
  length buf = 7%nat ->
  __init__ dev gyro_range {| _BUFFER := buf; trace := tr |} = (Ok drv, w1) ->
  dev_write dev (trace w1 ++ [Acquire]) [x80] false = true ->
  dev_readinto dev (trace w1 ++ [Acquire; Write [x80] false]) 7 =
    Some [st; xhi; xlo; yhi; ylo; zhi; zlo] ->
  exists c o,
    In (gyro_range, c) sensitivity_table /\
    fst (gyroscope drv w1) = Ok o /\
    py_items o = Some [int_mul_float (pack16 xhi xlo) c;
                       int_mul_float (pack16 yhi ylo) c;
                       int_mul_float (pack16 zhi zlo) c].
Proof.
  intros Hlen Hinit Hw Hr.
  destruct (init_ok_shape dev gyro_range buf tr drv w1 Hlen Hinit)
    as (cfg & Htab & -> & _ & _ & Hlen1).
  assert (exists c, In (gyro_range, c) sensitivity_table) as [c Hc].
  { simpl in Htab.
    destruct Htab as [H | [H | [H | [H | []]]]]; inversion H; subst;
      eexists; simpl; eauto. }
  destruct w1 as [buf1 tr1]. cbn [_BUFFER trace] in *.
  destruct (gyroscope_run {| _gyro_range := gyro_range; _device := dev |} c
              buf1 tr1 st xhi xlo yhi ylo zhi zlo Hc Hlen1 Hw Hr)
    as (o & Ho & _ & Hitems).
  exists c, o. split; [exact Hc|]. split; assumption.
Qed.


Lemma init_then_gyroscope_witness :
  exists c o,
    In (1000, c) sensitivity_table /\
    fst (gyroscope
           {| _gyro_range := 1000;
              _device := mock_device xd7 [x00; x01; x02; x03; x04; x05; x06] |}
           (snd (__init__ (mock_device xd7 [x00; x01; x02; x03; x04; x05; x06])
                          1000 fresh_world))) = Ok o /\
    py_items o = Some [int_mul_float (pack16 x01 x02) c;
                       int_mul_float (pack16 x03 x04) c;
                       int_mul_float (pack16 x05 x06) c].
Proof.
  apply (init_then_gyroscope
           (mock_device xd7 [x00; x01; x02; x03; x04; x05; x06]) 1000
           bytearray7 []
           {| _gyro_range := 1000;
              _device := mock_device xd7 [x00; x01; x02; x03; x04; x05; x06] |}
           (snd (__init__ (mock_device xd7 [x00; x01; x02; x03; x04; x05; x06])
                          1000 fresh_world))
           x00 x01 x02 x03 x04 x05 x06).
  - reflexivity.
  - reflexivity.
  - reflexivity.
  - reflexivity.
Defined.

(** ** Round trip of the packing *)

Lemma pack16_unpack (hi lo : byte) :
  pack16 hi lo / 256 = int_of_byte hi /\ pack16 hi lo mod 256 = int_of_byte lo.
Proof.
  rewrite pack16_value.
  pose proof (int_of_byte_range hi). pose proof (int_of_byte_range lo).
  split; Z.div_mod_to_equations; lia.
Qed.

Lemma pack16_inj (hi lo hi' lo' : byte) :
  pack16 hi lo = pack16 hi' lo' -> hi = hi' /\ lo = lo'.
Proof.
  intros H.
  destruct (pack16_unpack hi lo) as [Hh Hl].
  destruct (pack16_unpack hi' lo') as [Hh' Hl'].
  rewrite H in Hh, Hl.
  split; apply int_of_byte_inj; congruence.
Qed.

(** X14: packing loses nothing: from the tuple a served [read_raw] returns,
    the six data bytes of the burst are recovered as value / 256 and
    value mod 256, so two bursts that give the same tuple carried the same
    six data bytes. *)
Theorem read_raw_round_trip
    (self : FXAS21002C) (buf : list byte) (tr : list event)
    (st xhi xlo yhi ylo zhi zlo : byte) :
  length buf = 7%nat ->
  dev_write (_device self) (tr ++ [Acquire]) [x80] false = true ->
  dev_readinto (_device self) (tr ++ [Acquire; Write [x80] false]) 7 =
    Some [st; xhi; xlo; yhi; ylo; zhi; zlo] ->
  exists x y z,
    fst (read_raw self {| _BUFFER := buf; trace := tr |}) = Ok (x, y, z) /\
    map int_of_byte [xhi; xlo; yhi; ylo; zhi; zlo] =
      [x / 256; x mod 256; y / 256; y mod 256; z / 256; z mod 256] /\
    forall self' buf' tr' st' xhi' xlo' yhi' ylo' zhi' zlo',
      length buf' = 7%nat ->
      dev_write (_device self') (tr' ++ [Acquire]) [x80] false = true ->
      dev_readinto (_device self') (tr' ++ [Acquire; Write [x80] false]) 7 =
        Some [st'; xhi'; xlo'; yhi'; ylo'; zhi'; zlo'] ->
      fst (read_raw self' {| _BUFFER := buf'; trace := tr' |}) = Ok (x, y, z) ->
      [xhi'; xlo'; yhi'; ylo'; zhi'; zlo'] = [xhi; xlo; yhi; ylo; zhi; zlo].
Proof.
  intros Hlen Hw Hr.
  exists (pack16 xhi xlo), (pack16 yhi ylo), (pack16 zhi zlo).
  rewrite (read_raw_run self buf tr st xhi xlo yhi ylo zhi zlo Hlen Hw Hr).
  split; [reflexivity|]. split.
  - destruct (pack16_unpack xhi xlo) as [-> ->].
    destruct (pack16_unpack yhi ylo) as [-> ->].
    destruct (pack16_unpack zhi zlo) as [-> ->].
    reflexivity.
  - intros self' buf' tr' st' xhi' xlo' yhi' ylo' zhi' zlo' Hlen' Hw' Hr' Heq.
    rewrite (read_raw_run self' buf' tr' st' xhi' xlo' yhi' ylo' zhi' zlo'
               Hlen' Hw' Hr') in Heq.
    cbn [fst] in Heq. inversion Heq as [[Hx Hy Hz]].
    apply pack16_inj in Hx, Hy, Hz.
    destruct Hx as [-> ->], Hy as [-> ->], Hz as [-> ->]. reflexivity.
Qed.

Lemma read_raw_round_trip_witness :
  exists x y z,
    fst (read_raw (mock_sensor 250 [x40; xff; xfe; x80; x00; x7f; xff])
                  fresh_world) = Ok (x, y, z) /\
    map int_of_byte [xff; xfe; x80; x00; x7f; xff] =
      [x / 256; x mod 256; y / 256; y mod 256; z / 256; z mod 256].
Proof.
  destruct (read_raw_round_trip
              (mock_sensor 250 [x40; xff; xfe; x80; x00; x7f; xff])
              bytearray7 [] x40 xff xfe x80 x00 x7f xff
              eq_refl eq_refl eq_refl) as (x & y & z & Hres & Hbytes & _).
  exists x, y, z. split; assumption.
Defined.

(** ** Invariants of every operation *)

Lemma gyroscope_trace self w :
  trace (snd (gyroscope self w)) = trace (snd (read_raw self w)) /\
  _BUFFER (snd (gyroscope self w)) = _BUFFER (snd (read_raw self w)).
Proof. rewrite gyroscope_state. split; reflexivity. Qed.

(** X15: the shared buffer keeps its seven cells: whatever the device
    answers and on every path, failing ones included, [_read_u8],
    [_write_u8], [__init__], [read_raw] and [gyroscope] leave [_BUFFER] with
    length 7, so the next operation finds the cells it indexes. *)
Theorem operations_keep_buffer_length
    (dev : I2CDevice) (self : FXAS21002C) (address val gyro_range : Z)
    (buf : list byte) (tr : list event) :
  length buf = 7%nat ->
  let w := {| _BUFFER := buf; trace := tr |} in
  length (_BUFFER (snd (_read_u8 dev address w))) = 7%nat /\
  length (_BUFFER (snd (_write_u8 dev address val w))) = 7%nat /\
  length (_BUFFER (snd (__init__ dev gyro_range w))) = 7%nat /\
  length (_BUFFER (snd (read_raw self w))) = 7%nat /\
  length (_BUFFER (snd (gyroscope self w))) = 7%nat.
Proof.
  intros Hlen w. subst w.
  destruct (length7_inv buf Hlen) as (b0 & b1 & b2 & b3 & b4 & b5 & b6 & ->).
  destruct (mask8_byte address) as (a & Ha & _).
  destruct (mask8_byte val) as (v & Hv & _).
  split; [|split; [|split; [|split]]].
  - rewrite (read_u8_cases dev address a _ _ tr Ha).
    destruct (dev_write dev _ [a] false); [|reflexivity].
    destruct (dev_readinto dev _ 1) as [[|b [|b' data]]|]; reflexivity.
  - rewrite (write_u8_cases dev address val a v _ _ _ tr Ha Hv).
    destruct (dev_write dev _ [a; v] true); reflexivity.
  - destruct (range_in_options gyro_range) eqn:Hopt.
    + destruct (options_in_table _ Hopt) as [cfg Htab].
      rewrite (init_cases dev gyro_range cfg b0 b1 b2 b3 b4 b5 b6 tr Htab).
      destruct (dev_write dev _ [x0c] false); [|reflexivity].
      destruct (dev_readinto dev _ 1) as [[|b [|b' data]]|]; try reflexivity.
      cbn zeta.
      destruct (int_of_byte b =? 215); [|reflexivity].
      destruct (dev_write dev _ [x0d; cfg] true); [|reflexivity].
      destruct (dev_write dev _ [x13; x0e] true); reflexivity.
    + unfold __init__. rewrite Hopt. reflexivity.
  - rewrite (read_raw_cases self b0 b1 b2 b3 b4 b5 b6 tr).
    destruct (dev_write (_device self) _ [x80] false); [|reflexivity].
    destruct (dev_readinto (_device self) _ 7)
      as [[|c0 [|c1 [|c2 [|c3 [|c4 [|c5 [|c6 [|c7 data]]]]]]]]|];
      reflexivity.
  - rewrite (proj2 (gyroscope_trace self _)).
    rewrite (read_raw_cases self b0 b1 b2 b3 b4 b5 b6 tr).
    destruct (dev_write (_device self) _ [x80] false); [|reflexivity].
    destruct (dev_readinto (_device self) _ 7)
      as [[|c0 [|c1 [|c2 [|c3 [|c4 [|c5 [|c6 [|c7 data]]]]]]]]|];
      reflexivity.
Qed.

Lemma operations_keep_buffer_length_witness :
  let w := {| _BUFFER := bytearray7; trace := [] |} in
  length (_BUFFER (snd (_read_u8 (failing_device 0 false xd7 []) 0x0C w))) = 7%nat /\
  length (_BUFFER (snd (_write_u8 (failing_device 0 false xd7 []) 0x0C 3 w))) = 7%nat /\
  length (_BUFFER (snd (__init__ (failing_device 0 false xd7 []) 250 w))) = 7%nat /\
  length (_BUFFER (snd (read_raw (mock_sensor 250 [x00]) w))) = 7%nat /\
  length (_BUFFER (snd (gyroscope (mock_sensor 250 [x00]) w))) = 7%nat.
Proof.
  apply (operations_keep_buffer_length (failing_device 0 false xd7 [])
           (mock_sensor 250 [x00]) 0x0C 3 250 bytearray7 []).
  reflexivity.
Defined.

Ltac close_lock := eexists; split; [reflexivity | reflexivity].

Lemma read_raw_lock self buf tr :
  length buf = 7%nat ->
  exists evs,
    trace (snd (read_raw self {| _BUFFER := buf; trace := tr |})) = tr ++ evs /\
    lock_ok false evs = true /\
    (forall reg, register_writes reg evs = []) /\
    filter is_sleep evs = [].
Proof.
  intros Hlen.
  destruct (length7_inv buf Hlen) as (b0 & b1 & b2 & b3 & b4 & b5 & b6 & ->).
  rewrite (read_raw_cases self b0 b1 b2 b3 b4 b5 b6 tr).
  destruct (dev_write (_device self) _ [x80] false).
  - destruct (dev_readinto (_device self) _ 7)
      as [[|c0 [|c1 [|c2 [|c3 [|c4 [|c5 [|c6 [|c7 data]]]]]]]]|];
      (eexists; split; [reflexivity|]; split; [reflexivity|];
       split; [intros reg; reflexivity | reflexivity]).
  - eexists; split; [reflexivity|]; split; [reflexivity|];
      split; [intros reg; reflexivity | reflexivity].
Qed.

(** X16: every operation brackets its bus traffic with the lock, on every
    path: in the events that [_read_u8], [_write_u8], [__init__],
    [read_raw] and [gyroscope] add, the lock is taken only when free, bytes
    are written and read only while it is held, the sleep happens with the
    lock free, and the lock is free at the end, also when the bus fails or
    the identity is wrong. *)
Theorem operations_release_lock
    (dev : I2CDevice) (self : FXAS21002C) (address val gyro_range : Z)
    (buf : list byte) (tr : list event) :
  length buf = 7%nat ->
  let w := {| _BUFFER := buf; trace := tr |} in
  (exists evs, trace (snd (_read_u8 dev address w)) = tr ++ evs /\
               lock_ok false evs = true) /\
  (exists evs, trace (snd (_write_u8 dev address val w)) = tr ++ evs /\
               lock_ok false evs = true) /\
  (exists evs, trace (snd (__init__ dev gyro_range w)) = tr ++ evs /\
               lock_ok false evs = true) /\
  (exists evs, trace (snd (read_raw self w)) = tr ++ evs /\
               lock_ok false evs = true) /\
  (exists evs, trace (snd (gyroscope self w)) = tr ++ evs /\
               lock_ok false evs = true).
Proof.
  intros Hlen w. subst w.
  pose proof (read_raw_lock self buf tr Hlen) as (evs & Hevs & Hlock & _).
  destruct (length7_inv buf Hlen) as (b0 & b1 & b2 & b3 & b4 & b5 & b6 & ->).
  destruct (mask8_byte address) as (a & Ha & _).
  destruct (mask8_byte val) as (v & Hv & _).
  split; [|split; [|split; [|split]]].
  - rewrite (read_u8_cases dev address a _ _ tr Ha).
    destruct (dev_write dev _ [a] false); [|close_lock].
    destruct (dev_readinto dev _ 1) as [[|b [|b' data]]|]; close_lock.
  - rewrite (write_u8_cases dev address val a v _ _ _ tr Ha Hv).
    destruct (dev_write dev _ [a; v] true); close_lock.
  - destruct (range_in_options gyro_range) eqn:Hopt.
    + destruct (options_in_table _ Hopt) as [cfg Htab].
      rewrite (init_cases dev gyro_range cfg b0 b1 b2 b3 b4 b5 b6 tr Htab).
      destruct (dev_write dev _ [x0c] false); [|close_lock].
      destruct (dev_readinto dev _ 1) as [[|b [|b' data]]|]; try close_lock.
      cbn zeta.
      destruct (int_of_byte b =? 215); [|close_lock].
      destruct (dev_write dev _ [x0d; cfg] true); [|close_lock].
      destruct (dev_write dev _ [x13; x0e] true); close_lock.
    + unfold __init__. rewrite Hopt. exists []. cbn [raise snd trace].
      rewrite app_nil_r. split; reflexivity.
  - exists evs. split; assumption.
  - exists evs. rewrite (proj1 (gyroscope_trace self _)). split; assumption.
Qed.

Lemma operations_release_lock_witness :
  let w := {| _BUFFER := bytearray7; trace := [] |} in
  (exists evs, trace (snd (_read_u8 (failing_device 1 true xd7 []) 0x0C w)) = [] ++ evs /\
               lock_ok false evs = true) /\
  (exists evs, trace (snd (_write_u8 (failing_device 1 true xd7 []) 0x0C 7 w)) = [] ++ evs /\
               lock_ok false evs = true) /\
  (exists evs, trace (snd (__init__ (failing_device 1 true xd7 []) 500 w)) = [] ++ evs /\
               lock_ok false evs = true) /\
  (exists evs, trace (snd (read_raw (mock_sensor 250 []) w)) = [] ++ evs /\
               lock_ok false evs = true) /\
  (exists evs, trace (snd (gyroscope (mock_sensor 250 []) w)) = [] ++ evs /\
               lock_ok false evs = true).
Proof.
  apply (operations_release_lock (failing_device 1 true xd7 [])
           (mock_sensor 250 []) 0x0C 7 500 bytearray7 []).
  reflexivity.
Defined.

(** X17: reading never reconfigures the sensor and never sleeps: on every
    path, the events added by [read_raw] and by [gyroscope] hold no
    register write (a two-byte write ended by a stop) to any register, and
    no sleep. *)
Theorem reading_never_writes_registers
    (self : FXAS21002C) (buf : list byte) (tr : list event) :
  length buf = 7%nat ->
  let w := {| _BUFFER := buf; trace := tr |} in
  exists evs,
    trace (snd (read_raw self w)) = tr ++ evs /\
    trace (snd (gyroscope self w)) = tr ++ evs /\
    (forall reg, register_writes reg evs = []) /\
    filter is_sleep evs = [].
Proof.
  intros Hlen w. subst w.
  destruct (read_raw_lock self buf tr Hlen) as (evs & Hevs & _ & Hreg & Hsl).
  exists evs. rewrite (proj1 (gyroscope_trace self _)).
  repeat split; assumption.
Qed.

Lemma reading_never_writes_registers_witness :
  exists evs,
    trace (snd (read_raw (mock_sensor 2000 [x00; x01; x02; x03; x04; x05; x06])
                         fresh_world)) = [] ++ evs /\
    trace (snd (gyroscope (mock_sensor 2000 [x00; x01; x02; x03; x04; x05; x06])
                          fresh_world)) = [] ++ evs /\
    (forall reg, register_writes reg evs = []) /\
    filter is_sleep evs = [].
Proof.
  apply (reading_never_writes_registers
           (mock_sensor 2000 [x00; x01; x02; x03; x04; x05; x06])
           bytearray7 []).
  reflexivity.
Defined.

(** X18: the shared buffer carries nothing from one operation to the
    next: started from any two contents of the 7-byte buffer, [__init__],
    [read_raw] and [gyroscope] return the same result and put the same
    events on the bus, on every path. *)
Theorem operations_ignore_stale_buffer
    (dev : I2CDevice) (self : FXAS21002C) (gyro_range : Z)
    (buf1 buf2 : list byte) (tr : list event) :
  length buf1 = 7%nat ->
  length buf2 = 7%nat ->
  let w1 := {| _BUFFER := buf1; trace := tr |} in
  let w2 := {| _BUFFER := buf2; trace := tr |} in
  (fst (__init__ dev gyro_range w1) = fst (__init__ dev gyro_range w2) /\
   trace (snd (__init__ dev gyro_range w1)) =
   trace (snd (__init__ dev gyro_range w2))) /\
  (fst (read_raw self w1) = fst (read_raw self w2) /\
   trace (snd (read_raw self w1)) = trace (snd (read_raw self w2))) /\
  (fst (gyroscope self w1) = fst (gyroscope self w2) /\
   trace (snd (gyroscope self w1)) = trace (snd (gyroscope self w2))).
Proof.
  intros Hl1 Hl2 w1 w2. subst w1 w2.
  destruct (length7_inv buf1 Hl1) as (b0 & b1 & b2 & b3 & b4 & b5 & b6 & ->).
  destruct (length7_inv buf2 Hl2) as (c0 & c1 & c2 & c3 & c4 & c5 & c6 & ->).
  assert (fst (read_raw self {| _BUFFER := [b0; b1; b2; b3; b4; b5; b6]; trace := tr |}) =
          fst (read_raw self {| _BUFFER := [c0; c1; c2; c3; c4; c5; c6]; trace := tr |}) /\
          trace (snd (read_raw self {| _BUFFER := [b0; b1; b2; b3; b4; b5; b6]; trace := tr |})) =
          trace (snd (read_raw self {| _BUFFER := [c0; c1; c2; c3; c4; c5; c6]; trace := tr |})))
    as [Hres Htr].
  { rewrite !read_raw_cases.
    destruct (dev_write (_device self) _ [x80] false); [|split; reflexivity].
    destruct (dev_readinto (_device self) _ 7)
      as [[|d0 [|d1 [|d2 [|d3 [|d4 [|d5 [|d6 [|d7 data]]]]]]]]|];
      split; reflexivity. }
  split; [|split].
  - destruct (range_in_options gyro_range) eqn:Hopt.
    + destruct (options_in_table _ Hopt) as [cfg Htab].
      rewrite !(init_cases dev gyro_range cfg _ _ _ _ _ _ _ tr Htab).
      destruct (dev_write dev _ [x0c] false); [|split; reflexivity].
      destruct (dev_readinto dev _ 1) as [[|b [|b' data]]|];
        try (split; reflexivity).
      cbn zeta.
      destruct (int_of_byte b =? 215); [|split; reflexivity].
      destruct (dev_write dev _ [x0d; cfg] true); [|split; reflexivity].
      destruct (dev_write dev _ [x13; x0e] true); split; reflexivity.
    + unfold __init__. rewrite Hopt. split; reflexivity.
  - split; assumption.
  - split.
    + unfold gyroscope, bind.
      destruct (read_raw self {| _BUFFER := [b0; b1; b2; b3; b4; b5; b6]; trace := tr |})
        as [r1 s1].
      destruct (read_raw self {| _BUFFER := [c0; c1; c2; c3; c4; c5; c6]; trace := tr |})
        as [r2 s2].
      cbn [fst] in Hres. subst r2.
      destruct r1 as [raw | e]; [|reflexivity].
      unfold ret.
      repeat match goal with
             | |- context [if ?t then _ else _] => destruct t
             end; reflexivity.
    + rewrite !(proj1 (gyroscope_trace self _)). exact Htr.
Qed.

Lemma operations_ignore_stale_buffer_witness :
  let w1 := {| _BUFFER := bytearray7; trace := [] |} in
  let w2 := {| _BUFFER := [xff; xfe; xfd; xfc; xfb; xfa; xf9]; trace := [] |} in
  (fst (__init__ (mock_device xd7 []) 250 w1) = fst (__init__ (mock_device xd7 []) 250 w2) /\
   trace (snd (__init__ (mock_device xd7 []) 250 w1)) =
   trace (snd (__init__ (mock_device xd7 []) 250 w2))) /\
  (fst (read_raw (mock_sensor 250 [x00; x01; x02; x03; x04; x05; x06]) w1) =
   fst (read_raw (mock_sensor 250 [x00; x01; x02; x03; x04; x05; x06]) w2) /\
   trace (snd (read_raw (mock_sensor 250 [x00; x01; x02; x03; x04; x05; x06]) w1)) =
   trace (snd (read_raw (mock_sensor 250 [x00; x01; x02; x03; x04; x05; x06]) w2))) /\
  (fst (gyroscope (mock_sensor 250 [x00; x01; x02; x03; x04; x05; x06]) w1) =
   fst (gyroscope (mock_sensor 250 [x00; x01; x02; x03; x04; x05; x06]) w2) /\
   trace (snd (gyroscope (mock_sensor 250 [x00; x01; x02; x03; x04; x05; x06]) w1)) =
   trace (snd (gyroscope (mock_sensor 250 [x00; x01; x02; x03; x04; x05; x06]) w2))).
Proof.
  apply (operations_ignore_stale_buffer (mock_device xd7 [])
           (mock_sensor 250 [x00; x01; x02; x03; x04; x05; x06]) 250
           bytearray7 [xff; xfe; xfd; xfc; xfb; xfa; xf9] []);
    reflexivity.
Defined.
